(** * convert_cursors.py: Windows cursor themes to Linux cursor themes

    A shallow embedding of [src/convert_cursors.py] and the properties of
    its classifier, alias table and theme processor.

    Modelling choices.
    - A Python [str] is a [string] whose characters are the code points
      below 256; [lower], [strip] and [split] follow CPython on that range.
    - A [Path] carries its final component and what the file system holds
      there; [stem] follows pathlib ([rfind] of the dot, a leading or a
      trailing dot is no suffix).
    - Dicts are [gmap]s, the output tree is a set of directories and a
      [gmap] from paths to file contents. Writing a file ([open(p, 'w')],
      [shutil.copy2]) raises when the directory of the file does not exist;
      a path that is a file where a directory is expected, or the reverse,
      is not modelled.
    - The console, the output tree and the external converter are threaded
      through a state monad [M]; the converter, the dependency check and
      the text of an operating system error are oracles of the
      environment. An exception that nothing catches ends [run]. *)

From Stdlib Require Import Ascii NArith ZArith.
From stdpp Require Import base option list strings gmap pretty.

Open Scope list_scope.
Open Scope stdpp_scope.

(** ** Python string primitives *)

Module Py.

Definition dquote : string := String "034"%char EmptyString.
Definition newline : ascii := "010"%char.

Definition in_range (lo hi n : N) : bool := ((lo <=? n) && (n <=? hi))%N.

(** [str.lower] on one code point below 256: A-Z, and the Latin-1
    capitals U+00C0..U+00DE without the multiplication sign U+00D7. *)
Definition lower_char (c : ascii) : ascii :=
  let n := N_of_ascii c in
  if in_range 65 90 n || (in_range 192 222 n && negb (n =? 215)%N)
  then ascii_of_N (n + 32) else c.

Fixpoint lower (s : string) : string :=
  match s with
  | EmptyString => EmptyString
  | String c s' => String (lower_char c) (lower s')
  end.

(** [str.isspace] on one code point below 256. *)
Definition isspace (c : ascii) : bool :=
  let n := N_of_ascii c in
  in_range 9 13 n || in_range 28 32 n || (n =? 133)%N || (n =? 160)%N.

Fixpoint lstrip (s : string) : string :=
  match s with
  | EmptyString => EmptyString
  | String c s' => if isspace c then lstrip s' else s
  end.

Fixpoint rstrip (s : string) : string :=
  match s with
  | EmptyString => EmptyString
  | String c s' =>
      match rstrip s' with
      | EmptyString => if isspace c then EmptyString else String c EmptyString
      | r => String c r
      end
  end.

Definition strip (s : string) : string := rstrip (lstrip s).

(** [x in s] *)
Fixpoint contains (x s : string) : bool :=
  String.prefix x s ||
  match s with
  | EmptyString => false
  | String _ s' => contains x s'
  end.

(** [s.split(sep)] for a one-character separator: never empty. *)
Fixpoint split (sep : ascii) (s : string) : list string :=
  match s with
  | EmptyString => [EmptyString]
  | String c s' =>
      if Ascii.eqb c sep then EmptyString :: split sep s'
      else match split sep s' with
           | [] => [String c EmptyString]
           | w :: ws => String c w :: ws
           end
  end.

(** [s.split()]: runs of white space separate, no empty word. *)
Fixpoint split_ws_go (cur : string) (s : string) : list string :=
  match s with
  | EmptyString => if String.eqb cur "" then [] else [String.rev cur]
  | String c s' =>
      if isspace c
      then (if String.eqb cur "" then [] else [String.rev cur]) ++ split_ws_go "" s'
      else split_ws_go (String c cur) s'
  end.

Definition split_ws (s : string) : list string := split_ws_go "" s.

(** [s.rfind(c)], [None] for -1. *)
Fixpoint rfind (c : ascii) (s : string) : option nat :=
  match s with
  | EmptyString => None
  | String a s' =>
      match rfind c s' with
      | Some i => Some (S i)
      | None => if Ascii.eqb a c then Some 0 else None
      end
  end.

(** [any(x in s for x in xs)] *)
Definition any_in (xs : list string) (s : string) : bool :=
  existsb (fun x => contains x s) xs.

End Py.

(** ** Paths *)

(** What the file system holds at a path. *)
Inductive node :=
  | Missing                      (* [exists()] is false *)
  | Unreadable                   (* [open] or [read] raises *)
  | Text (content : string).

Record Path := mkPath { name : string; at_path : node }.

Definition exists_ (p : Path) : bool :=
  match at_path p with Missing => false | _ => true end.

(** pathlib's [stem]: the name up to its last dot, when that dot is
    neither the first nor the last character. *)
Definition stem_of (n : string) : string :=
  match Py.rfind "." n with
  | Some i =>
      if (0 <? i) && (i <? String.length n - 1)
      then String.substring 0 i n else n
  | None => n
  end.

Definition stem (p : Path) : string := stem_of (name p).

(** ** The two tables *)

Definition CURSOR_MAPPINGS : gmap string string :=
  list_to_map [
    ("Alternate", "bottom_left_corner bottom_right_corner bottom_side down-arrow left-arrow left_side right-arrow right_side top_left_corner top_right_corner top_side up_arrow");
    ("Busy", "half-busy wait watch");
    ("Cross", "cross crosshair");
    ("Default", "arrow default left_ptr size-bdiag size-fdiag size-hor size-ver top_left_arrow");
    ("Dgn1", "nw-resize nwse-resize se-resize size_fdiag");
    ("Dgn2", "ne-resize nesw-resize sw-resize size_bdiag");
    ("Hand", "draft pencil");
    ("Help", "help left_ptr_help question_arrow whats_this");
    ("Horizontal", "col-resize e-resize ew-resize h_double_arrow sb_h_double_arrow size_hor split_h w-resize");
    ("Link", "grab hand hand1 hand2 openhand pointer pointing_hand");
    ("Move", "all-scroll closedhand dnd-move dnd-none fleur grabbing move size_all");
    ("Text", "ibeam text xterm");
    ("Unavailable", "circle crossed_circle dnd_no_drop forbidden no_drop not_allowed");
    ("Vertical", "n-resize ns-resize row-resize s-resize sb_v_double_arrow size_ver split_v v_double_arrow");
    ("Work", "left_ptr_watch pirate progress")
  ].

(** The dict local to [get_cursor_name_from_inf]. *)
Definition mapping : gmap string string :=
  list_to_map [
    ("pointer", "Default");
    ("help", "Help");
    ("working", "Work");
    ("busy", "Busy");
    ("precision", "Cross");
    ("text", "Text");
    ("hand", "Hand");
    ("unavailable", "Unavailable");
    ("vert", "Vertical");
    ("horz", "Horizontal");
    ("dgn1", "Dgn1");
    ("dgn2", "Dgn2");
    ("move", "Move");
    ("alternate", "Alternate");
    ("link", "Link")
  ].

(** [CURSOR_MAPPINGS.get(cursor_name, "")] and its [split()] *)
Definition linux_names_for (cursor_name : string) : string :=
  default "" (CURSOR_MAPPINGS !! cursor_name).

Definition target_aliases (cursor_name : string) : list string :=
  Py.split_ws (linux_names_for cursor_name).

(** ** The classifier: [get_cursor_name_from_inf] *)

(** How a block of statements ends. *)
Inductive completion (A : Type) :=
  | Falls                        (* ran to its end *)
  | Returns (v : A)              (* hit a [return] *)
  | Raises.                      (* raised an [Exception] *)
Arguments Falls {A}.
Arguments Returns {A} v.
Arguments Raises {A}.

(** [f'= "{file_name}"'] *)
Definition assoc_needle (file_name : string) : string :=
  "= " +:+ Py.dquote +:+ file_name +:+ Py.dquote.

(** [line.split('=')[0].strip()] *)
Definition cursor_var (line : string) : string :=
  Py.strip (hd "" (Py.split "=" line)).

(** The [for line in content.split('\n')] loop: the first line that
    contains the needle returns, whatever [mapping.get] gives. *)
Fixpoint scan_lines (file_name : string) (lines : list string)
  : completion (option string) :=
  match lines with
  | [] => Falls
  | line :: rest =>
      if Py.contains (assoc_needle file_name) line
      then Returns (mapping !! Py.lower (cursor_var line))
      else scan_lines file_name rest
  end.

(** The body of the [try]. *)
Definition read_descriptor (inf_file cursor_file : Path)
  : completion (option string) :=
  match at_path inf_file with
  | Text content => scan_lines (name cursor_file) (Py.split Py.newline content)
  | Missing | Unreadable => Raises
  end.

(** The [if]/[elif] chain over [base_name]. *)
Definition match_by_pattern (base_name : string) : option string :=
  if Py.any_in ["normal"; "arrow"; "default"] base_name then Some "Default"
  else if Py.any_in ["busy"; "wait"] base_name then Some "Busy"
  else if Py.any_in ["text"; "beam"] base_name then Some "Text"
  else if Py.any_in ["handwriting"; "hand"] base_name then Some "Hand"
  else if Py.contains "link" base_name then Some "Link"
  else if Py.any_in ["precision"; "cross"] base_name then Some "Cross"
  else if Py.contains "move" base_name then Some "Move"
  else if Py.contains "help" base_name then Some "Help"
  else if Py.any_in ["unavailable"; "no"] base_name then Some "Unavailable"
  else if Py.any_in ["vertical"; "vert"] base_name then Some "Vertical"
  else if Py.any_in ["horizontal"; "horz"] base_name then Some "Horizontal"
  else if Py.any_in ["diagonal1"; "dgn1"] base_name then Some "Dgn1"
  else if Py.any_in ["diagonal2"; "dgn2"] base_name then Some "Dgn2"
  else if Py.any_in ["working"; "work"; "progress"] base_name then Some "Work"
  else if Py.any_in ["alternate"; "alt"] base_name then Some "Alternate"
  else None.

Definition fallback (cursor_file : Path) : option string :=
  match_by_pattern (Py.lower (stem cursor_file)).

Definition get_cursor_name_from_inf
  (inf_file : option Path) (cursor_file : Path) : option string :=
  match inf_file with
  | Some inf =>
      if exists_ inf then
        match read_descriptor inf cursor_file with
        | Returns v => v
        | Raises => fallback cursor_file      (* except Exception: pass *)
        | Falls => fallback cursor_file
        end
      else fallback cursor_file
  | None => fallback cursor_file
  end.

(** ** The world the script acts on *)

(** Paths below the script's directory, as their components. *)
Definition path := list string.

Record world := mkWorld {
  stdout : list string;              (* the lines printed so far *)
  dirs : gset path;                  (* the directories that exist *)
  files : gmap path string           (* the files written, with content *)
}.

(** What [subprocess.run(["win2xcur", "--help"], check=True)] does. *)
Inductive help_result :=
  | HelpExit (returncode : Z)
  | HelpFileNotFound.

(** What [subprocess.run(["win2xcur", "-o", temp, input])] does, with the
    listing of the scratch directory afterwards (name and content). *)
Inductive tool_result :=
  | ToolExit (returncode : Z) (converted_files : list (string * string))
  | ToolRaises (e : string).

(** A theme directory under [input/]: its name and its entries in the
    order the operating system lists them. *)
Record theme_dir := mkTheme { dir_name : string; listing : list Path }.

Record env := mkEnv {
  script_dir : string;
  help_run : help_result;
  convert_run : Path → tool_result;
  input_subdirs : list theme_dir;    (* [d for d in iterdir() if d.is_dir()] *)
  no_such_file : path → string       (* [str(e)] of the FileNotFoundError for a path *)
}.

(** ** A state monad over the world *)

Definition M (A : Type) : Type := world → A * world.

Definition ret {A} (a : A) : M A := λ w, (a, w).
Definition bind {A B} (c : M A) (k : A → M B) : M B :=
  λ w, let (a, w') := c w in k a w'.

Notation "'let*' x ':=' c 'in' k" := (bind c (λ x, k))
  (at level 10, x name, c at level 100, k at level 200, only parsing).
Notation "c1 ;; c2" := (bind c1 (λ _, c2))
  (at level 100, c2 at level 200, right associativity, only parsing).

Definition exec {A} (c : M A) (w : world) : world := snd (c w).
Definition eval {A} (c : M A) (w : world) : A := fst (c w).

Module Colors.
Definition esc : string := String "027"%char EmptyString.
Definition RED : string := esc +:+ "[0;31m".
Definition GREEN : string := esc +:+ "[0;32m".
Definition YELLOW : string := esc +:+ "[1;33m".
Definition BLUE : string := esc +:+ "[0;34m".
Definition NC : string := esc +:+ "[0m".
End Colors.

Definition print (line : string) : M unit :=
  λ w, (tt, mkWorld (stdout w ++ [line]) (dirs w) (files w)).

Definition print_message (color message : string) : M unit :=
  print (color +:+ message +:+ Colors.NC).

(** [p.mkdir(parents=True, exist_ok=True)] *)
Definition ancestors_and_self (p : path) : list path :=
  map (λ n, take n p) (seq 1 (length p)).

Definition mkdir_p (p : path) : M unit :=
  λ w, (tt, mkWorld (stdout w) (dirs w ∪ list_to_set (ancestors_and_self p)) (files w)).

Definition dir_exists (p : path) : M bool :=
  λ w, (bool_decide (p ∈ dirs w), w).

(** What a statement that may raise gives. *)
Inductive outcome (A : Type) :=
  | Ok (a : A)
  | Raise (e : string).
Arguments Ok {A} a.
Arguments Raise {A} e.

(** Sequencing that lets an exception pass through. *)
Definition bind_ok {A B} (c : M (outcome A)) (k : A → M (outcome B))
  : M (outcome B) :=
  let* r := c in
  match r with
  | Ok a => k a
  | Raise e => ret (Raise e)
  end.

Notation "c1 ;;! c2" := (bind_ok c1 (λ _, c2))
  (at level 100, c2 at level 200, right associativity, only parsing).

(** The directory is there: the script's own directory, or one of [dirs]. *)
Definition has_dir (d : path) (w : world) : Prop := d = [] ∨ d ∈ dirs w.

#[global] Instance has_dir_dec d w : Decision (has_dir d w).
Proof. unfold has_dir. apply _. Defined.

(** [open(p, 'w').write(content)] and [shutil.copy2(_, p)]: the file is
    written when its directory exists, and FileNotFoundError is raised
    otherwise. *)
Definition write_file (E : env) (p : path) (content : string) : M (outcome unit) :=
  λ w, if bool_decide (has_dir (removelast p) w)
       then (Ok tt, mkWorld (stdout w) (dirs w) (<[p := content]> (files w)))
       else (Raise (no_such_file E p), w).

Definition path_str (E : env) (p : path) : string :=
  fold_left (λ acc c, acc +:+ "/" +:+ c) p (script_dir E).

Definition input_dir : path := ["input"].
Definition output_dir : path := ["output"].

(** ** The script's methods *)

Section CursorConverter.

Variable E : env.

Definition check_win2xcur : M bool :=
  match help_run E with
  | HelpExit 0 => ret true
  | HelpExit _ | HelpFileNotFound =>
      print_message Colors.RED "Error: win2xcur is not installed or not in PATH" ;;
      print_message Colors.YELLOW
        "Please install win2xcur from: https://github.com/quantum5/win2xcur" ;;
      ret false
  end.

Definition create_directories : M bool :=
  let* present := dir_exists input_dir in
  if negb present then
    mkdir_p input_dir ;;
    print_message Colors.YELLOW
      ("Created input directory: " +:+ path_str E input_dir) ;;
    print_message Colors.BLUE
      "Please place your Windows cursor folders (with .cur/.ani files and install.inf) in this directory" ;;
    print_message Colors.BLUE "Each cursor theme should be in its own subfolder" ;;
    ret false
  else
    mkdir_p output_dir ;;
    let* made := dir_exists output_dir in
    (if negb made then
       print_message Colors.GREEN
         ("Created output directory: " +:+ path_str E output_dir)
     else ret tt) ;;
    ret true.

(** [directory.glob("*" + ext)] and [directory.glob(literal)] *)
Definition endswith (suffix s : string) : bool :=
  String.prefix (String.rev suffix) (String.rev s).

Definition glob_ext (ext : string) (directory : theme_dir) : list Path :=
  List.filter (λ p, endswith ext (name p)) (listing directory).

(** A pattern without wild cards yields the entry only if it exists. *)
Definition glob_name (n : string) (directory : theme_dir) : list Path :=
  List.filter (λ p, String.eqb (name p) n && exists_ p) (listing directory).

Definition find_cursor_files (directory : theme_dir) : list Path :=
  glob_ext ".cur" directory ++ glob_ext ".ani" directory.

(** [inf_files[0] if inf_files else None] over the two globs. *)
Definition find_inf_file (directory : theme_dir) : option Path :=
  let inf_files :=
    glob_name "install.inf" directory ++ glob_ext ".inf" directory in
  head inf_files.

(** The [for linux_name in linux_names.split()] loop of copies; the first
    copy that raises ends it. *)
Fixpoint copy_to_aliases (content : string) (out : path)
  (linux_names : list string) : M (outcome unit) :=
  match linux_names with
  | [] => ret (Ok tt)
  | linux_name :: rest =>
      write_file E (out ++ [linux_name]) content ;;!
      copy_to_aliases content out rest
  end.

Definition convert_cursor_file (input_file : Path) (out : path)
  (cursor_name linux_names : string) : M bool :=
  print_message Colors.BLUE
    ("  Converting " +:+ cursor_name +:+ " -> " +:+ linux_names) ;;
  match convert_run E input_file with
  | ToolExit returncode converted_files =>
      if (returncode =? 0)%Z then
        match converted_files with
        | converted_file :: _ =>
            let* copied :=
              copy_to_aliases (snd converted_file) out (Py.split_ws linux_names) in
            match copied with
            | Ok _ => ret true
            | Raise e =>                               (* except Exception as e *)
                print_message Colors.RED
                  ("    Error converting " +:+ name input_file +:+ ": " +:+ e) ;;
                ret false
            end
        | [] => ret false
        end
      else ret false
  | ToolRaises e =>
      print_message Colors.RED
        ("    Error converting " +:+ name input_file +:+ ": " +:+ e) ;;
      ret false
  end.

Definition index_theme_content (theme_name : string) : string :=
  "[Icon Theme]" +:+ String Py.newline
  ("Name=" +:+ theme_name +:+ String Py.newline
  ("Comment=Converted Windows cursor theme: " +:+ theme_name +:+ String Py.newline
  ("Inherits=core" +:+ String Py.newline ""))).

Definition create_index_theme (theme : path) (theme_name : string)
  : M (outcome unit) :=
  write_file E (theme ++ ["index.theme"]) (index_theme_content theme_name) ;;!
  print_message Colors.BLUE "  Created index.theme file" ;;
  ret (Ok tt).

(** The body of [for cursor_file in cursor_files]: it gives the
    [converted_count] the next round starts from. *)
Definition convert_one (inf_file : option Path) (cursors_dir : path)
  (cursor_file : Path) (converted_count : nat) : M nat :=
  match get_cursor_name_from_inf inf_file cursor_file with
  | None =>
      print_message Colors.YELLOW
        ("    Skipping unmapped cursor: " +:+ name cursor_file) ;;
      ret converted_count                                  (* continue *)
  | Some cursor_name =>
      let linux_names := linux_names_for cursor_name in
      if negb (String.eqb linux_names "") then
        let* ok := convert_cursor_file cursor_file cursors_dir
                     cursor_name linux_names in
        if ok then ret (S converted_count)
        else
          print_message Colors.RED
            ("    Failed to convert: " +:+ name cursor_file) ;;
          ret converted_count
      else
        print_message Colors.YELLOW
          ("    No mapping found for: " +:+ cursor_name +:+
           " (" +:+ name cursor_file +:+ ")") ;;
        ret converted_count
  end.

Fixpoint convert_each (inf_file : option Path) (cursors_dir : path)
  (cursor_files : list Path) (converted_count : nat) : M nat :=
  match cursor_files with
  | [] => ret converted_count
  | cursor_file :: rest =>
      let* converted_count :=
        convert_one inf_file cursors_dir cursor_file converted_count in
      convert_each inf_file cursors_dir rest converted_count
  end.

Definition process_cursor_theme (theme : theme_dir) : M (outcome unit) :=
  let theme_name := dir_name theme in
  let output_theme_dir := output_dir ++ [theme_name] in
  print_message Colors.GREEN ("Processing cursor theme: " +:+ theme_name) ;;
  let cursors_dir := output_theme_dir ++ ["cursors"] in
  mkdir_p cursors_dir ;;
  let inf_file := find_inf_file theme in
  let cursor_files := find_cursor_files theme in
  match cursor_files with
  | [] =>
      print_message Colors.YELLOW
        ("  No cursor files found in " +:+ theme_name) ;;
      ret (Ok tt)                                            (* return *)
  | _ :: _ =>
      let total_count := length cursor_files in
      let* converted_count := convert_each inf_file cursors_dir cursor_files 0 in
      print_message Colors.GREEN
        ("  Converted " +:+ pretty converted_count +:+ "/" +:+
         pretty total_count +:+ " cursor files") ;;
      create_index_theme output_theme_dir theme_name
  end.

Fixpoint process_all (theme_dirs : list theme_dir) : M (outcome unit) :=
  match theme_dirs with
  | [] => ret (Ok tt)
  | theme :: rest =>
      process_cursor_theme theme ;;! print "" ;; process_all rest
  end.

(** How [run] ends: through [sys.exit(code)], by returning, or with an
    exception that nothing caught. *)
Inductive termination := Exit (code : Z) | Completed | Uncaught (e : string).

Definition run : M termination :=
  print_message Colors.BLUE "Windows to Linux Cursor Converter" ;;
  print_message Colors.BLUE "=================================" ;;
  let* found := check_win2xcur in
  if negb found then ret (Exit 1)
  else
    let* ready := create_directories in
    if negb ready then ret (Exit 0)
    else
      let theme_dirs := input_subdirs E in
      match theme_dirs with
      | [] =>
          print_message Colors.YELLOW
            ("No cursor theme directories found in " +:+ path_str E input_dir) ;;
          print_message Colors.BLUE
            "Please create subdirectories in input/ for each cursor theme" ;;
          ret (Exit 0)
      | _ :: _ =>
          print_message Colors.GREEN
            ("Found " +:+ pretty (length theme_dirs) +:+
             " cursor theme(s) to process") ;;
          let* processed := process_all theme_dirs in
          match processed with
          | Raise e => ret (Uncaught e)
          | Ok _ =>
              print_message Colors.GREEN "Conversion completed!" ;;
              print_message Colors.BLUE
                ("Converted cursor themes are available in: " +:+
                 path_str E output_dir) ;;
              print_message Colors.BLUE
                "To install a theme, copy it to ~/.icons/ or /usr/share/icons/" ;;
              ret Completed
          end
      end.

(** The status the operating system sees: a script that runs to its end
    exits with 0, one that dies of an exception with 1. *)
Definition exit_status (t : termination) : Z :=
  match t with Exit code => code | Completed => 0 | Uncaught _ => 1 end.

End CursorConverter.

(** ** Statements in the words of the specification *)

(** The role table as the specification documents it: role, alias set. *)
Definition documented_aliases : list (string * gset string) := [
  ("Alternate", {[ "bottom_left_corner"; "bottom_right_corner"; "bottom_side";
                   "down-arrow"; "left-arrow"; "left_side"; "right-arrow";
                   "right_side"; "top_left_corner"; "top_right_corner";
                   "top_side"; "up_arrow" ]});
  ("Busy", {[ "half-busy"; "wait"; "watch" ]});
  ("Cross", {[ "cross"; "crosshair" ]});
  ("Default", {[ "left_ptr"; "default"; "arrow"; "top_left_arrow";
                 "size-bdiag"; "size-fdiag"; "size-hor"; "size-ver" ]});
  ("Dgn1", {[ "nw-resize"; "nwse-resize"; "se-resize"; "size_fdiag" ]});
  ("Dgn2", {[ "ne-resize"; "nesw-resize"; "sw-resize"; "size_bdiag" ]});
  ("Hand", {[ "draft"; "pencil" ]});
  ("Help", {[ "help"; "left_ptr_help"; "question_arrow"; "whats_this" ]});
  ("Horizontal", {[ "col-resize"; "e-resize"; "ew-resize"; "h_double_arrow";
                    "sb_h_double_arrow"; "size_hor"; "split_h"; "w-resize" ]});
  ("Link", {[ "grab"; "hand"; "hand1"; "hand2"; "openhand"; "pointer";
              "pointing_hand" ]});
  ("Move", {[ "all-scroll"; "closedhand"; "dnd-move"; "dnd-none"; "fleur";
              "grabbing"; "move"; "size_all" ]});
  ("Text", {[ "ibeam"; "text"; "xterm" ]});
  ("Unavailable", {[ "circle"; "crossed_circle"; "dnd_no_drop"; "forbidden";
                     "no_drop"; "not_allowed" ]});
  ("Vertical", {[ "n-resize"; "ns-resize"; "row-resize"; "s-resize";
                  "sb_v_double_arrow"; "size_ver"; "split_v"; "v_double_arrow" ]});
  ("Work", {[ "left_ptr_watch"; "pirate"; "progress" ]})
].

Definition roles : list string := documented_aliases.*1.

(** Expansion agrees with a documented row: the same set, no alias twice. *)
Definition expands_to (row : string * gset string) : Prop :=
  list_to_set (target_aliases row.1) = row.2 ∧ NoDup (target_aliases row.1).

#[local] Instance expands_to_dec row : Decision (expands_to row).
Proof. unfold expands_to. apply _. Defined.

(** The pattern rules in the priority order of the specification. *)
Definition pattern_rules : list (string * list string) := [
  ("Default", ["normal"; "arrow"; "default"]);
  ("Busy", ["busy"; "wait"]);
  ("Text", ["text"; "beam"]);
  ("Hand", ["handwriting"; "hand"]);
  ("Link", ["link"]);
  ("Cross", ["precision"; "cross"]);
  ("Move", ["move"]);
  ("Help", ["help"]);
  ("Unavailable", ["unavailable"; "no"]);
  ("Vertical", ["vertical"; "vert"]);
  ("Horizontal", ["horizontal"; "horz"]);
  ("Dgn1", ["diagonal1"; "dgn1"]);
  ("Dgn2", ["diagonal2"; "dgn2"]);
  ("Work", ["working"; "work"; "progress"]);
  ("Alternate", ["alternate"; "alt"])
].

(** The role of the first rule one of whose substrings occurs. *)
Definition first_matching_rule (base_name : string) : option string :=
  fst <$> List.find (λ rule, Py.any_in rule.2 base_name) pattern_rules.

(** The first descriptor line that names the file. *)
Definition first_association (file_name content : string) : option string :=
  List.find (Py.contains (assoc_needle file_name)) (Py.split Py.newline content).

(** The dependency is there when [win2xcur --help] runs and exits with 0. *)
Definition dependency_present (E : env) : bool :=
  match help_run E with HelpExit 0 => true | _ => false end.



(** The line of the [No mapping found for] branch. *)
Definition no_mapping_line (line : string) : bool :=
  String.prefix (Colors.YELLOW +:+ "    No mapping found for: ") line.

Definition not_no_mapping (line : string) : Prop := no_mapping_line line = false.

Definition index_theme_of (theme : theme_dir) : path :=
  output_dir ++ [dir_name theme; "index.theme"].

Definition cursors_dir_of (theme : theme_dir) : path :=
  output_dir ++ [dir_name theme; "cursors"].

(** What the specification's test list says of a theme without cursor
    files: the record is written, the cursors directory is there and
    empty, and the report reads 0/0. *)
Definition empty_theme_reported_as_0_of_0 (E : env) (theme : theme_dir)
  (w : world) : Prop :=
  let w' := exec (process_cursor_theme E theme) w in
  files w' !! index_theme_of theme = Some (index_theme_content (dir_name theme)) ∧
  cursors_dir_of theme ∈ dirs w' ∧
  (∀ alias, files w' !! (cursors_dir_of theme ++ [alias]) = None) ∧
  (Colors.GREEN +:+ "  Converted 0/0 cursor files" +:+ Colors.NC) ∈ stdout w'.

(** Fixtures: a fresh installation, and one with a theme that holds no
    cursor file. *)
Definition fresh_world : world := mkWorld [] ∅ ∅.
Definition ready_world : world := mkWorld [] {[ input_dir ]} ∅.

Definition stub_converter : Path → tool_result :=
  λ p, ToolExit 0 [("cursor", "Xcur:" +:+ name p)].

Definition empty_theme : theme_dir :=
  mkTheme "Plain" [mkPath "readme.txt" (Text "no cursors here")].

Definition env_with (help : help_result) (conv : Path → tool_result)
  (themes : list theme_dir) : env :=
  mkEnv "/opt/convert" help conv themes
    (λ p, "[Errno 2] No such file or directory: " +:+
          fold_left (λ acc c, acc +:+ "/" +:+ c) p "/opt/convert").

(** A descriptor with a [Strings] section in the usual layout. *)
Definition quoted (s : string) : string := Py.dquote +:+ s +:+ Py.dquote.

Definition descriptor (lines : list string) : Path :=
  mkPath "install.inf"
    (Text (fold_right (λ l acc, l +:+ String Py.newline acc) "" lines)).

Definition inf_cross : Path :=
  descriptor ["[Strings]"; "cross = " +:+ quoted "precision.cur"].

Definition inf_text_busy : Path :=
  descriptor ["[Strings]"; "Text = " +:+ quoted "busy.cur"].

(** A descriptor line associates an identifier with a file: it contains
    an assignment whose right-hand side, quoted, is the file name, and its
    identifier is what stands left of its first [=], without the white space
    around it and without regard to case. *)
Definition assigns (line file_name : string) : Prop :=
  ∃ before after, line = before +:+ ("= " +:+ quoted file_name) +:+ after.

Definition identifier_of (line ident : string) : Prop :=
  ∃ lhs rhs, line = lhs +:+ String "=" rhs ∧
             Py.contains "=" lhs = false ∧
             ident = Py.lower (Py.strip lhs).

(** The descriptor names the file under a role: one of its lines associates
    a recognised identifier with the file. *)
Definition descriptor_names (content file_name role : string) : Prop :=
  ∃ line ident,
    line ∈ Py.split Py.newline content ∧ assigns line file_name ∧
    identifier_of line ident ∧ mapping !! ident = Some role.

(** The priority of the descriptor as the specification's test list words
    it: named by the descriptor under a role and matched by a pattern, the
    file gets the descriptor's role. *)
Definition descriptor_wins_as_stated (inf cursor_file : Path) : Prop :=
  ∀ content role role',
    at_path inf = Text content →
    descriptor_names content (name cursor_file) role →
    get_cursor_name_from_inf None cursor_file = Some role' →
    get_cursor_name_from_inf (Some inf) cursor_file = Some role.

Definition inf_text_help : Path :=
  descriptor ["[Strings]"; "text = " +:+ quoted "busy.cur";
              "help = " +:+ quoted "busy.cur"].

Definition inf_cross_text : Path :=
  descriptor ["[Strings]"; "cross = " +:+ quoted "busy.cur";
              "text = " +:+ quoted "busy.cur"].

(** Every line a computation prints satisfies [ok]. *)
Definition emits_only {A} (ok : string → Prop) (c : M A) : Prop :=
  ∀ w, ∃ emitted, stdout (exec c w) = stdout w ++ emitted ∧ Forall ok emitted.

(** A theme of three cursor files, the second of which (in glob order) no
    rule recognises, and a converter that fails on animated cursors. *)
Definition mixed_theme : theme_dir :=
  mkTheme "Aero"
    [mkPath "busy.ani" (Text "RIFF"); mkPath "normal.cur" (Text "ICO");
     mkPath "zzz.cur" (Text "ICO"); mkPath "beam.cur" (Text "ICO")].

Definition static_only_converter : Path → tool_result :=
  λ p, if String.eqb (name p) "busy.ani"
       then ToolExit 1 []
       else ToolExit 0 [("cursor", "Xcur:" +:+ name p)].

(** ** Summaries of the code, used to state further properties *)

(** A cursor source name: it ends in one of the two globbed extensions. *)
Definition is_cursor_name (n : string) : bool :=
  endswith ".cur" n || endswith ".ani" n.

(** Every substring the fallback tests, in the order of the rules. *)
Definition all_patterns : list string := concat (pattern_rules.*2).

(** The copies [copy_to_aliases] leaves in the file map. *)
Definition write_aliases (content : string) (out : path)
  (linux_names : list string) (m : gmap path string) : gmap path string :=
  foldl (λ m linux_name, <[out ++ [linux_name] := content]> m) m linux_names.

(** The artifact [convert_cursor_file] copies: the first entry of the
    scratch directory after an exit with status 0. *)
Definition converted_artifact (r : tool_result) : option string :=
  match r with
  | ToolExit returncode (converted_file :: _) =>
      if (returncode =? 0)%Z then Some converted_file.2 else None
  | ToolExit _ [] | ToolRaises _ => None
  end.

(** The file is classified and its conversion succeeds. *)
Definition converts (E : env) (inf_file : option Path) (cursor_file : Path) : bool :=
  match get_cursor_name_from_inf inf_file cursor_file with
  | Some _ => bool_decide (is_Some (converted_artifact (convert_run E cursor_file)))
  | None => false
  end.

(** The paths a theme's processing may write: its record, and the aliases
    of the 15 roles in its cursors directory. *)
Definition alias_path_of (out : path) (p : path) : Prop :=
  ∃ role alias, role ∈ roles ∧ alias ∈ target_aliases role ∧ p = out ++ [alias].

Definition theme_targets (theme : theme_dir) (p : path) : Prop :=
  p = index_theme_of theme ∨ alias_path_of (cursors_dir_of theme) p.

(** No alias belongs to two roles. *)
Definition aliases_apart (role1 role2 : string) : Prop :=
  role1 = role2 ∨ Forall (λ alias, alias ∉ target_aliases role2) (target_aliases role1).

#[local] Instance aliases_apart_dec role1 role2 : Decision (aliases_apart role1 role2).
Proof. unfold aliases_apart. apply _. Defined.

(** ** The alias table *)

(** C3: for every role of the 15-role table, target expansion returns
    exactly the documented alias set, and the table has exactly these 15
    keys; "Text" expands to {ibeam, text, xterm} and "Default" to
    {left_ptr, default, arrow, top_left_arrow, size-bdiag, size-fdiag,
    size-hor, size-ver}. *)
Theorem expansion_is_documented :
  Forall expands_to documented_aliases ∧
  dom CURSOR_MAPPINGS = list_to_set roles ∧
  length roles = 15 ∧
  list_to_set (target_aliases "Text") =@{gset string}
    {[ "ibeam"; "text"; "xterm" ]} ∧
  list_to_set (target_aliases "Default") =@{gset string}
    {[ "left_ptr"; "default"; "arrow"; "top_left_arrow";
       "size-bdiag"; "size-fdiag"; "size-hor"; "size-ver" ]}.
Proof. apply (bool_decide_unpack _). vm_compute. exact I. Qed.

(** ** Strings: what the classifier relies on *)

Section StringFacts.

Lemma append_cons c s t : String c s +:+ t = String c (s +:+ t).
Proof. reflexivity. Qed.

Lemma append_length s t :
  String.length (s +:+ t) = String.length s + String.length t.
Proof. induction s as [|c s IH]; [reflexivity|]. rewrite append_cons. simpl. lia. Qed.

Lemma substring_append_l s t :
  String.substring 0 (String.length s) (s +:+ t) = s.
Proof.
  induction s as [|c s IH].
  - destruct t; reflexivity.
  - rewrite append_cons. simpl. by rewrite IH.
Qed.

(** The last dot of [s ++ ".xyz"] is the one that starts the extension. *)
Lemma rfind_dot_ext s ext :
  Py.rfind "." ext = None →
  Py.rfind "." (s +:+ String "." ext) = Some (String.length s).
Proof.
  intros Hext. induction s as [|c s IH].
  - change ("" +:+ String "." ext) with (String "." ext).
    simpl. by rewrite Hext.
  - rewrite append_cons. simpl. by rewrite IH.
Qed.

Lemma stem_of_ext c base ext :
  Py.rfind "." ext = None → ext ≠ "" →
  stem_of (String c base +:+ String "." ext) = String c base.
Proof.
  intros Hext Hne. unfold stem_of. rewrite rfind_dot_ext by done.
  rewrite append_length.
  assert (0 < String.length ext) by (destruct ext; [done | simpl; lia]).
  replace ((0 <? String.length (String c base)) &&
           (String.length (String c base) <?
              String.length (String c base) + String.length (String "." ext) - 1))
    with true.
  - apply substring_append_l.
  - symmetry. apply andb_true_iff. split; apply Nat.ltb_lt; simpl; lia.
Qed.

Lemma lower_char_dot c : Ascii.eqb (Py.lower_char c) "." = Ascii.eqb c ".".
Proof. by destruct c as [[] [] [] [] [] [] [] []]. Qed.

Lemma lower_length s : String.length (Py.lower s) = String.length s.
Proof. induction s; simpl; congruence. Qed.

Lemma rfind_dot_lower s : Py.rfind "." (Py.lower s) = Py.rfind "." s.
Proof.
  induction s as [|c s IH]; [reflexivity|].
  simpl. by rewrite IH, lower_char_dot.
Qed.

Lemma substring_lower i s :
  String.substring 0 i (Py.lower s) = Py.lower (String.substring 0 i s).
Proof.
  revert i. induction s as [|c s IH]; intros [|i]; simpl; try reflexivity.
  by rewrite IH.
Qed.

Lemma lower_char_idemp c : Py.lower_char (Py.lower_char c) = Py.lower_char c.
Proof. by destruct c as [[] [] [] [] [] [] [] []]. Qed.

Lemma lower_idemp s : Py.lower (Py.lower s) = Py.lower s.
Proof. induction s; simpl; [done|]. by rewrite lower_char_idemp, IHs. Qed.

(** Lowering commutes with taking the stem. *)
Lemma stem_of_lower n : stem_of (Py.lower n) = Py.lower (stem_of n).
Proof.
  unfold stem_of. rewrite rfind_dot_lower, lower_length.
  destruct (Py.rfind "." n) as [i|]; [|done].
  destruct ((0 <? i) && (i <? String.length n - 1)); [|done].
  apply substring_lower.
Qed.

End StringFacts.

(** ** The classifier *)

Lemma match_by_pattern_rules base_name :
  match_by_pattern base_name = first_matching_rule base_name.
Proof.
  unfold match_by_pattern, first_matching_rule, pattern_rules, Py.any_in.
  cbn [List.find existsb snd fst].
  rewrite !orb_false_r.
  repeat match goal with
         | |- context [if ?b then _ else _] => destruct b; [reflexivity|]
         end.
  reflexivity.
Qed.

(** C4: without a descriptor hit, classification takes the stem of the
    file name (for a name "base.cur" or "base.ani", the base), lowers it and
    returns the role of the first rule, in the order Default, Busy, Text,
    Hand, Link, Cross, Move, Help, Unavailable, Vertical, Horizontal, Dgn1,
    Dgn2, Work, Alternate, one of whose substrings occurs in it; the case of
    the name does not matter, and "MyBusyCursor.cur" is "Busy". *)
Theorem pattern_classification :
  (∀ cursor_file,
     get_cursor_name_from_inf None cursor_file =
     first_matching_rule (Py.lower (stem cursor_file))) ∧
  pattern_rules.*1 =
    ["Default"; "Busy"; "Text"; "Hand"; "Link"; "Cross"; "Move"; "Help";
     "Unavailable"; "Vertical"; "Horizontal"; "Dgn1"; "Dgn2"; "Work";
     "Alternate"] ∧
  (∀ c base nd,
     stem (mkPath (String c base +:+ ".cur") nd) = String c base ∧
     stem (mkPath (String c base +:+ ".ani") nd) = String c base) ∧
  (∀ cursor_file,
     get_cursor_name_from_inf None cursor_file =
     get_cursor_name_from_inf None
       (mkPath (Py.lower (name cursor_file)) (at_path cursor_file))) ∧
  (∀ nd, get_cursor_name_from_inf None (mkPath "MyBusyCursor.cur" nd) =
         Some "Busy").
Proof.
  split; [|split; [|split; [|split]]].
  - intros f. unfold get_cursor_name_from_inf, fallback.
    apply match_by_pattern_rules.
  - reflexivity.
  - intros c base nd. unfold stem. simpl name.
    split; apply stem_of_ext; done.
  - intros f. unfold get_cursor_name_from_inf, fallback, stem. simpl name.
    by rewrite stem_of_lower, lower_idemp.
  - intros nd. reflexivity.
Qed.

Lemma scan_lines_find file_name lines :
  scan_lines file_name lines =
  match List.find (Py.contains (assoc_needle file_name)) lines with
  | Some line => Returns (mapping !! Py.lower (cursor_var line))
  | None => Falls
  end.
Proof.
  induction lines as [|line rest IH]; [reflexivity|].
  simpl. by destruct (Py.contains (assoc_needle file_name) line).
Qed.

(** The classifier in one equation: the descriptor decides as soon as one
    of its lines names the file; otherwise the patterns decide. *)
Lemma get_cursor_name_from_inf_eq inf_file cursor_file :
  get_cursor_name_from_inf inf_file cursor_file =
  match inf_file with
  | Some (mkPath _ (Text content)) =>
      match first_association (name cursor_file) content with
      | Some line => mapping !! Py.lower (cursor_var line)
      | None => fallback cursor_file
      end
  | _ => fallback cursor_file
  end.
Proof.
  destruct inf_file as [[n [| |content]]|]; try reflexivity.
  unfold get_cursor_name_from_inf, read_descriptor, first_association.
  simpl. rewrite scan_lines_find.
  by destruct (List.find _ _).
Qed.

(** C1: a descriptor line [cross = "precision.cur"] names the file with an
    identifier outside the 15 known ones. The patterns alone give "Cross",
    but the classifier returns [None] from the descriptor step and never
    reaches them. *)
Theorem unknown_identifier_stops_at_descriptor :
  let cursor_file := mkPath "precision.cur" (Text "") in
  first_association (name cursor_file) (match at_path inf_cross with
                                        | Text c => c | _ => "" end)
    = Some ("cross = " +:+ quoted "precision.cur") ∧
  mapping !! Py.lower (cursor_var ("cross = " +:+ quoted "precision.cur")) = None ∧
  get_cursor_name_from_inf None cursor_file = Some "Cross" ∧
  get_cursor_name_from_inf (Some inf_cross) cursor_file = None.
Proof. repeat split; vm_compute; reflexivity. Qed.

(** What the descriptor step does with an identifier it does not know:
    it returns [None], whatever the file name looks like. *)
Lemma unknown_identifier_returns_none inf cursor_file content line :
  at_path inf = Text content →
  first_association (name cursor_file) content = Some line →
  mapping !! Py.lower (cursor_var line) = None →
  get_cursor_name_from_inf (Some inf) cursor_file = None.
Proof.
  intros Hinf Hline Hrole. rewrite get_cursor_name_from_inf_eq.
  destruct inf as [n nd]. simpl in Hinf. subst nd.
  by rewrite Hline.
Qed.

Lemma contains_unfold x s :
  Py.contains x s =
  String.prefix x s ||
  match s with EmptyString => false | String _ s' => Py.contains x s' end.
Proof. by destruct s. Qed.

Lemma prefix_app x b : String.prefix x (x +:+ b) = true.
Proof.
  induction x as [|c x IH]; [by destruct b|].
  rewrite append_cons. cbn [String.prefix].
  by destruct (ascii_dec c c).
Qed.

Lemma contains_app a x b : Py.contains x (a +:+ x +:+ b) = true.
Proof.
  induction a as [|c a IH].
  - change ("" +:+ x +:+ b) with (x +:+ b).
    rewrite contains_unfold, prefix_app. done.
  - rewrite append_cons, contains_unfold, IH. apply orb_true_r.
Qed.

Lemma contains_char_cons c a s :
  Py.contains (String c EmptyString) (String a s) = false →
  a ≠ c ∧ Py.contains (String c EmptyString) s = false.
Proof.
  rewrite contains_unfold. intros H. apply orb_false_iff in H as [Hp Hs].
  split; [|done]. intros ->. cbn in Hp.
  destruct (ascii_dec c c); [by destruct s | done].
Qed.

(** [split(sep)[0]] is what stands before the first separator. *)
Lemma hd_split_before sep s t :
  Py.contains (String sep EmptyString) s = false →
  hd "" (Py.split sep (s +:+ String sep t)) = s.
Proof.
  induction s as [|a s IH]; intros Hs.
  - change ("" +:+ String sep t) with (String sep t).
    cbn [Py.split]. by rewrite Ascii.eqb_refl.
  - apply contains_char_cons in Hs as [Hne Hs].
    rewrite append_cons. cbn [Py.split].
    apply Ascii.eqb_neq in Hne. rewrite Hne.
    specialize (IH Hs).
    destruct (Py.split sep (s +:+ String sep t)); cbn in *; by subst.
Qed.

Lemma find_after_misses {A} (f : A → bool) pre x post :
  Forall (λ y, f y = false) pre → f x = true →
  List.find f (pre ++ x :: post) = Some x.
Proof.
  intros Hpre Hx. induction Hpre as [|y pre Hy _ IH]; cbn.
  - by rewrite Hx.
  - by rewrite Hy.
Qed.

Lemma prefix_split x s : String.prefix x s = true → ∃ b, s = x +:+ b.
Proof.
  revert s. induction x as [|c x IH]; intros s Hp; [by exists s|].
  destruct s as [|a s]; [done|]. cbn [String.prefix] in Hp.
  destruct (ascii_dec c a) as [->|]; [|done].
  destruct (IH s Hp) as [b ->]. by exists b.
Qed.

Lemma contains_split x s :
  Py.contains x s = true → ∃ a b, s = a +:+ x +:+ b.
Proof.
  induction s as [|c s IH]; rewrite contains_unfold; intros H.
  - apply orb_true_iff in H as [H|H]; [|done].
    apply prefix_split in H as [b ->]. by exists "", b.
  - apply orb_true_iff in H as [H|H].
    + apply prefix_split in H as [b ->]. by exists "", b.
    + destruct (IH H) as (a & b & ->). by exists (String c a), b.
Qed.

(** The substring test of the code is the association of the
    specification. *)
Lemma assigns_iff_contains line file_name :
  assigns line file_name ↔ Py.contains (assoc_needle file_name) line = true.
Proof.
  change (assoc_needle file_name) with ("= " +:+ quoted file_name).
  split.
  - intros (a & b & ->). apply contains_app.
  - intros H. apply contains_split in H as (a & b & ->). by exists a, b.
Qed.

Lemma identifier_of_cursor_var line ident :
  identifier_of line ident → Py.lower (cursor_var line) = ident.
Proof.
  intros (lhs & rhs & -> & Hlhs & ->). unfold cursor_var.
  by rewrite hd_split_before.
Qed.

Lemma first_assignment_found file_name pre line post :
  Forall (λ l, ¬ assigns l file_name) pre → assigns line file_name →
  List.find (Py.contains (assoc_needle file_name)) (pre ++ line :: post) = Some line.
Proof.
  intros Hpre Hline. apply find_after_misses.
  - eapply Forall_impl; [exact Hpre|]. intros l Hl.
    destruct (Py.contains (assoc_needle file_name) l) eqn:Hc; [|done].
    by apply assigns_iff_contains in Hc.
  - by apply assigns_iff_contains.
Qed.

(** C5, as the code has it: when the first descriptor line that
    associates an identifier with the file carries a recognised identifier,
    the classifier returns the role of that identifier, whatever role the
    file name patterns give; lines after it are not consulted. *)
Theorem descriptor_takes_priority inf cursor_file content pre line post
    ident role role' :
  at_path inf = Text content →
  Py.split Py.newline content = pre ++ line :: post →
  Forall (λ l, ¬ assigns l (name cursor_file)) pre →
  assigns line (name cursor_file) →
  identifier_of line ident →
  mapping !! ident = Some role →
  get_cursor_name_from_inf None cursor_file = Some role' →
  get_cursor_name_from_inf (Some inf) cursor_file = Some role.
Proof.
  intros Hinf Hlines Hpre Hline Hident Hrole _.
  rewrite get_cursor_name_from_inf_eq.
  destruct inf as [n nd]. simpl in Hinf. subst nd.
  unfold first_association. rewrite Hlines.
  rewrite first_assignment_found by done.
  by rewrite (identifier_of_cursor_var line ident).
Qed.

Lemma descriptor_takes_priority_witness :
  let cursor_file := mkPath "busy.cur" (Text "") in
  get_cursor_name_from_inf None cursor_file = Some "Busy" ∧
  get_cursor_name_from_inf (Some inf_text_busy) cursor_file = Some "Text".
Proof.
  split; [reflexivity|].
  apply (descriptor_takes_priority inf_text_busy (mkPath "busy.cur" (Text ""))
           ("[Strings]" +:+ String Py.newline
              (("Text = " +:+ quoted "busy.cur") +:+ String Py.newline ""))
           ["[Strings]"] ("Text = " +:+ quoted "busy.cur") [""]
           "text" "Text" "Busy").
  - reflexivity.
  - reflexivity.
  - constructor; [|constructor].
    intros H. apply assigns_iff_contains in H. discriminate H.
  - by exists "Text ", "".
  - by exists "Text ", (" " +:+ quoted "busy.cur").
  - reflexivity.
  - reflexivity.
Defined.

(** C5, as stated, fails: a line that names the file under "Help" is not
    used when an earlier line names it under "Text", and a line that names
    it under "Text" is not used when an earlier line names it with the
    unknown identifier "cross" (then the result is [None]). *)
Lemma later_association_is_not_used :
  let busy := mkPath "busy.cur" (Text "") in
  ¬ descriptor_wins_as_stated inf_text_help busy ∧
  ¬ descriptor_wins_as_stated inf_cross_text busy.
Proof.
  split.
  - intros H.
    specialize (H _ "Help" "Busy" eq_refl).
    assert (get_cursor_name_from_inf (Some inf_text_help) (mkPath "busy.cur" (Text ""))
            = Some "Help") as Hbad; [|discriminate Hbad].
    apply H; [|reflexivity].
    exists ("help = " +:+ quoted "busy.cur"), "help".
    split; [apply (bool_decide_unpack _); vm_compute; exact I|].
    split; [by exists "help ", ""|].
    split; [by exists "help ", (" " +:+ quoted "busy.cur") | reflexivity].
  - intros H.
    specialize (H _ "Text" "Busy" eq_refl).
    assert (get_cursor_name_from_inf (Some inf_cross_text) (mkPath "busy.cur" (Text ""))
            = Some "Text") as Hbad; [|discriminate Hbad].
    apply H; [|reflexivity].
    exists ("text = " +:+ quoted "busy.cur"), "text".
    split; [apply (bool_decide_unpack _); vm_compute; exact I|].
    split; [by exists "text ", ""|].
    split; [by exists "text ", (" " +:+ quoted "busy.cur") | reflexivity].
Qed.

(** C10: when reading the descriptor raises, the exception is swallowed and
    the classifier gives what it gives without a descriptor. *)
Theorem descriptor_errors_fall_back inf cursor_file :
  read_descriptor inf cursor_file = Raises →
  get_cursor_name_from_inf (Some inf) cursor_file =
  get_cursor_name_from_inf None cursor_file.
Proof.
  intros Hraise. unfold get_cursor_name_from_inf. rewrite Hraise.
  by destruct (exists_ inf).
Qed.

Lemma descriptor_errors_fall_back_witness :
  let inf := mkPath "install.inf" Unreadable in
  let cursor_file := mkPath "busy.cur" (Text "") in
  read_descriptor inf cursor_file = Raises ∧
  get_cursor_name_from_inf (Some inf) cursor_file = Some "Busy".
Proof.
  split; [reflexivity|].
  change (Some "Busy") with
    (get_cursor_name_from_inf None (mkPath "busy.cur" (Text ""))).
  apply (descriptor_errors_fall_back (mkPath "install.inf" Unreadable)
           (mkPath "busy.cur" (Text ""))).
  reflexivity.
Defined.

(** The roles the classifier can give. *)
Lemma mapping_range k role : mapping !! k = Some role → role ∈ roles.
Proof.
  intros H. apply elem_of_list_to_map_2 in H.
  repeat (apply elem_of_cons in H as [H|H];
          [injection H as _ ->; apply (bool_decide_unpack _); vm_compute; exact I|]).
  by apply elem_of_nil in H.
Qed.

Lemma match_by_pattern_range base_name role :
  match_by_pattern base_name = Some role → role ∈ roles.
Proof.
  unfold match_by_pattern.
  repeat match goal with
         | |- context [if ?b then _ else _] =>
             destruct b;
             [intros [= <-]; apply (bool_decide_unpack _); vm_compute; exact I|]
         end.
  discriminate.
Qed.

Lemma classifier_range inf_file cursor_file role :
  get_cursor_name_from_inf inf_file cursor_file = Some role → role ∈ roles.
Proof.
  rewrite get_cursor_name_from_inf_eq.
  assert (fallback cursor_file = Some role → role ∈ roles) as Hfb
    by apply match_by_pattern_range.
  destruct inf_file as [[n [| |content]]|]; try exact Hfb.
  destruct (first_association _ _); [apply mapping_range | exact Hfb].
Qed.

Lemma roles_mapped role :
  role ∈ roles →
  is_Some (CURSOR_MAPPINGS !! role) ∧ linux_names_for role ≠ "" ∧
  target_aliases role ≠ [].
Proof.
  intros H.
  repeat (apply elem_of_cons in H as [->|H];
          [split; [eexists; vm_compute; reflexivity
                  | split; vm_compute; discriminate]|]).
  by apply elem_of_nil in H.
Qed.

(** ** The state monad *)

Section MonadFacts.

Context {A B : Type}.

Lemma bind_run (c : M A) (k : A → M B) w :
  bind c k w = k (eval c w) (exec c w).
Proof. unfold bind, eval, exec. by destruct (c w). Qed.

Lemma eval_bind (c : M A) (k : A → M B) w :
  eval (bind c k) w = eval (k (eval c w)) (exec c w).
Proof. unfold eval at 1. by rewrite bind_run. Qed.

Lemma exec_bind (c : M A) (k : A → M B) w :
  exec (bind c k) w = exec (k (eval c w)) (exec c w).
Proof. unfold exec at 1. by rewrite bind_run. Qed.

End MonadFacts.

Lemma exec_print_message color message w :
  exec (print_message color message) w =
  mkWorld (stdout w ++ [color +:+ message +:+ Colors.NC]) (dirs w) (files w).
Proof. reflexivity. Qed.

(** ** Themes without cursor files *)

(** C2, as the code has it: a theme without cursor files gets its cursors
    directory, one line saying that no cursor file was found, and nothing
    else: no file is written (so no index.theme) and no count is printed. *)
Theorem empty_theme_is_only_reported E theme w :
  find_cursor_files theme = [] →
  exec (process_cursor_theme E theme) w =
  mkWorld
    (stdout w ++
       [Colors.GREEN +:+ ("Processing cursor theme: " +:+ dir_name theme) +:+ Colors.NC;
        Colors.YELLOW +:+ ("  No cursor files found in " +:+ dir_name theme) +:+ Colors.NC])
    (dirs w ∪ list_to_set (ancestors_and_self (cursors_dir_of theme)))
    (files w).
Proof.
  intros Hnone. unfold process_cursor_theme. rewrite Hnone.
  unfold exec, bind, print_message, print, mkdir_p. simpl.
  by rewrite <- app_assoc.
Qed.

Lemma empty_theme_is_only_reported_witness :
  find_cursor_files empty_theme = [] ∧
  files (exec (process_cursor_theme
                 (env_with (HelpExit 0) stub_converter [empty_theme])
                 empty_theme) ready_world) = ∅ ∧
  cursors_dir_of empty_theme ∈
    dirs (exec (process_cursor_theme
                  (env_with (HelpExit 0) stub_converter [empty_theme])
                  empty_theme) ready_world).
Proof.
  split; [reflexivity|].
  rewrite (empty_theme_is_only_reported
             (env_with (HelpExit 0) stub_converter [empty_theme])
             empty_theme ready_world eq_refl).
  split; [reflexivity|].
  apply (bool_decide_unpack _). vm_compute. exact I.
Defined.

(** C2, as stated, fails on a theme that holds only a text file: no
    index.theme is written. *)
Lemma empty_theme_not_indexed :
  find_cursor_files empty_theme = [] ∧
  ¬ empty_theme_reported_as_0_of_0
      (env_with (HelpExit 0) stub_converter [empty_theme])
      empty_theme ready_world.
Proof.
  split; [reflexivity|].
  intros (Hindex & _). vm_compute in Hindex. discriminate.
Qed.

(** ** The loop over the cursor files of a theme *)

Section Loop.

Variable E : env.
Variables (inf_file : option Path) (cursors_dir : path).

Lemma convert_each_app pre post n w :
  convert_each E inf_file cursors_dir (pre ++ post) n w =
  convert_each E inf_file cursors_dir post
    (eval (convert_each E inf_file cursors_dir pre n) w)
    (exec (convert_each E inf_file cursors_dir pre n) w).
Proof.
  revert n w. induction pre as [|f pre IH]; intros n w; [reflexivity|].
  cbn [app convert_each]. rewrite !bind_run, IH.
  by rewrite eval_bind, exec_bind.
Qed.

(** Rounds before and after a file are untouched by what happens to it. *)
Lemma convert_each_middle pre f post n w :
  convert_each E inf_file cursors_dir (pre ++ f :: post) n w =
  let k := eval (convert_each E inf_file cursors_dir pre n) w in
  let w1 := exec (convert_each E inf_file cursors_dir pre n) w in
  convert_each E inf_file cursors_dir post
    (eval (convert_one E inf_file cursors_dir f k) w1)
    (exec (convert_one E inf_file cursors_dir f k) w1).
Proof. rewrite convert_each_app. cbn [convert_each]. by rewrite bind_run. Qed.




End Loop.

(** ** Writing into the output tree *)

Lemma write_file_eq E (d : path) (a content : string) w :
  write_file E (d ++ [a]) content w =
  if bool_decide (has_dir d w)
  then (Ok tt, mkWorld (stdout w) (dirs w) (<[d ++ [a] := content]> (files w)))
  else (Raise (no_such_file E (d ++ [a])), w).
Proof. unfold write_file. by rewrite removelast_last. Qed.

Lemma bool_decide_or_nonempty {A} (l : list A) (P : Prop) `{!Decision P} :
  l ≠ [] → bool_decide (l = [] ∨ P) = bool_decide P.
Proof.
  intros Hl. apply bool_decide_ext. split; [by intros [?|?] | by right].
Qed.

Lemma copy_to_aliases_eq E content out linux_names w :
  copy_to_aliases E content out linux_names w =
  if bool_decide (linux_names = [] ∨ has_dir out w)
  then (Ok tt,
        mkWorld (stdout w) (dirs w) (write_aliases content out linux_names (files w)))
  else (Raise (no_such_file E (out ++ [hd "" linux_names])), w).
Proof.
  revert w. induction linux_names as [|a rest IH]; intros w.
  - rewrite bool_decide_eq_true_2 by (by left). by destruct w.
  - rewrite bool_decide_or_nonempty by done.
    cbn [copy_to_aliases]. unfold bind_ok. rewrite bind_run.
    unfold eval, exec. rewrite write_file_eq.
    destruct (bool_decide (has_dir out w)) eqn:Hdir; [|done].
    cbn [fst snd]. rewrite IH.
    rewrite bool_decide_eq_true_2; [done|].
    right. by apply bool_decide_eq_true in Hdir.
Qed.

Lemma lookup_write_aliases content out linux_names m p :
  write_aliases content out linux_names m !! p =
  if bool_decide (p ∈ (λ a, out ++ [a]) <$> linux_names)
  then Some content else m !! p.
Proof.
  revert m. induction linux_names as [|a rest IH]; intros m; [done|].
  change (write_aliases content out (a :: rest) m)
    with (write_aliases content out rest (<[out ++ [a] := content]> m)).
  rewrite IH, fmap_cons. clear IH.
  case_bool_decide as H1.
  - rewrite bool_decide_eq_true_2; [done | by right].
  - destruct (decide (p = out ++ [a])) as [->|Hne].
    + rewrite lookup_insert_eq. rewrite bool_decide_eq_true_2; [done | by left].
    + rewrite lookup_insert_ne by done.
      rewrite bool_decide_eq_false_2; [done|].
      intros [?|?]%elem_of_cons; done.
Qed.

(** The driver in one equation. *)
Lemma convert_cursor_file_eq E f out cn ln w :
  convert_cursor_file E f out cn ln w =
  let line := Colors.BLUE +:+ ("  Converting " +:+ cn +:+ " -> " +:+ ln) +:+ Colors.NC in
  let error e :=
    Colors.RED +:+ ("    Error converting " +:+ name f +:+ ": " +:+ e) +:+ Colors.NC in
  match convert_run E f with
  | ToolRaises e =>
      (false, mkWorld (stdout w ++ [line; error e]) (dirs w) (files w))
  | ToolExit _ _ =>
      match converted_artifact (convert_run E f) with
      | Some content =>
          if bool_decide (Py.split_ws ln = [] ∨ has_dir out w)
          then (true,
                mkWorld (stdout w ++ [line]) (dirs w)
                  (write_aliases content out (Py.split_ws ln) (files w)))
          else (false,
                mkWorld
                  (stdout w ++
                     [line; error (no_such_file E (out ++ [hd "" (Py.split_ws ln)]))])
                  (dirs w) (files w))
      | None => (false, mkWorld (stdout w ++ [line]) (dirs w) (files w))
      end
  end.
Proof.
  unfold convert_cursor_file. rewrite bind_run. cbv zeta.
  destruct (convert_run E f) as [rc [|art arts]|e]; cbn [converted_artifact].
  - by destruct (rc =? 0)%Z.
  - destruct (rc =? 0)%Z; [|done].
    rewrite bind_run. unfold eval, exec. rewrite copy_to_aliases_eq.
    change (has_dir out (print_message _ _ w).2) with (has_dir out w).
    destruct (bool_decide (Py.split_ws ln = [] ∨ has_dir out w)); [done|].
    cbn [fst snd]. unfold bind, print_message, print, ret. cbn.
    by rewrite <- app_assoc.
  - unfold bind, print_message, print, ret, exec. cbn.
    by rewrite <- app_assoc.
Qed.

(** One round of the loop: count, directories and files. *)
Lemma convert_one_effect E inf_file out f n w :
  let after := exec (convert_one E inf_file out f n) w in
  eval (convert_one E inf_file out f n) w =
    (if converts E inf_file f && bool_decide (has_dir out w) then S n else n) ∧
  dirs after = dirs w ∧
  files after =
    match get_cursor_name_from_inf inf_file f with
    | Some role =>
        match converted_artifact (convert_run E f) with
        | Some content =>
            if bool_decide (has_dir out w)
            then write_aliases content out (target_aliases role) (files w)
            else files w
        | None => files w
        end
    | None => files w
    end.
Proof.
  cbv zeta. unfold converts, convert_one.
  destruct (get_cursor_name_from_inf inf_file f) as [role|] eqn:Hrole; [|done].
  destruct (roles_mapped role (classifier_range _ _ _ Hrole)) as (_ & Hne & Hal).
  apply String.eqb_neq in Hne. rewrite Hne. cbn [negb].
  unfold eval, exec. rewrite bind_run. unfold eval, exec.
  rewrite convert_cursor_file_eq. cbv zeta.
  fold (target_aliases role). rewrite bool_decide_or_nonempty by done.
  destruct (convert_run E f) as [rc [|art arts]|e]; cbn [converted_artifact];
    [| destruct (rc =? 0)%Z; [destruct (bool_decide (has_dir out w))|] |]; done.
Qed.

Lemma convert_each_frame E inf_file out cursor_files n w :
  dirs (exec (convert_each E inf_file out cursor_files n) w) = dirs w ∧
  ∀ p, ¬ alias_path_of out p →
       files (exec (convert_each E inf_file out cursor_files n) w) !! p = files w !! p.
Proof.
  revert n w. induction cursor_files as [|f fs IH]; intros n w; [done|].
  cbn [convert_each]. rewrite exec_bind.
  destruct (IH (eval (convert_one E inf_file out f n) w)
               (exec (convert_one E inf_file out f n) w)) as [-> Hfiles].
  destruct (convert_one_effect E inf_file out f n w) as (_ & -> & Hone).
  split; [done|]. intros p Hp. rewrite Hfiles, Hone by done.
  destruct (get_cursor_name_from_inf inf_file f) as [role|] eqn:Hrole; [|done].
  destruct (converted_artifact _); [|done].
  destruct (bool_decide (has_dir out w)); [|done].
  rewrite lookup_write_aliases, bool_decide_eq_false_2; [done|].
  intros (a & -> & Ha)%list_elem_of_fmap.
  apply Hp. exists role, a. split; [|done].
  by apply classifier_range in Hrole.
Qed.

Lemma create_index_theme_eq E (theme : path) theme_name w :
  create_index_theme E theme theme_name w =
  if bool_decide (has_dir theme w)
  then (Ok tt,
        mkWorld
          (stdout w ++ [Colors.BLUE +:+ "  Created index.theme file" +:+ Colors.NC])
          (dirs w)
          (<[theme ++ ["index.theme"] := index_theme_content theme_name]> (files w)))
  else (Raise (no_such_file E (theme ++ ["index.theme"])), w).
Proof.
  unfold create_index_theme, bind_ok. rewrite bind_run.
  unfold eval, exec. rewrite write_file_eq.
  by destruct (bool_decide (has_dir theme w)).
Qed.

(** The theme processor in one equation: it never raises, since the
    directory of its record was made before the loop. *)
Lemma process_cursor_theme_eq E theme w :
  process_cursor_theme E theme w =
  let w1 :=
    mkWorld
      (stdout w ++
         [Colors.GREEN +:+ ("Processing cursor theme: " +:+ dir_name theme) +:+ Colors.NC])
      (dirs w ∪ list_to_set (ancestors_and_self (cursors_dir_of theme)))
      (files w) in
  match find_cursor_files theme with
  | [] =>
      (Ok tt,
       mkWorld
         (stdout w1 ++
            [Colors.YELLOW +:+ ("  No cursor files found in " +:+ dir_name theme) +:+
               Colors.NC])
         (dirs w1) (files w1))
  | cursor_files =>
      let loop := convert_each E (find_inf_file theme) (cursors_dir_of theme)
                    cursor_files 0 in
      let w2 := exec loop w1 in
      (Ok tt,
       mkWorld
         (stdout w2 ++
            [Colors.GREEN +:+
               ("  Converted " +:+ pretty (eval loop w1) +:+ "/" +:+
                pretty (length cursor_files) +:+ " cursor files") +:+ Colors.NC;
             Colors.BLUE +:+ "  Created index.theme file" +:+ Colors.NC])
         (dirs w2)
         (<[index_theme_of theme := index_theme_content (dir_name theme)]> (files w2)))
  end.
Proof.
  unfold process_cursor_theme. cbv zeta.
  destruct (find_cursor_files theme) as [|f fs]; [reflexivity|].
  rewrite !bind_run.
  set (w1 := exec (mkdir_p _) _).
  set (loop := convert_each _ _ _ _ _).
  set (w3 := exec (print_message _ _) (exec loop w1)).
  rewrite create_index_theme_eq.
  assert (has_dir (output_dir ++ [dir_name theme]) w3) as Hdir.
  { right. change (dirs w3) with (dirs (exec loop w1)). subst loop.
    match goal with |- _ ∈ dirs (exec (convert_each ?E ?i ?o ?l ?n) ?w) =>
      rewrite (proj1 (convert_each_frame E i o l n w)) end.
    subst w1. cbn. set_unfold. auto. }
  rewrite bool_decide_eq_true_2 by done.
  unfold w3, print_message, print, exec. cbn [snd stdout dirs files].
  by rewrite <- app_assoc.
Qed.

(** A theme with cursor files always ends with its count and its record. *)
Lemma theme_with_files_is_indexed E theme w :
  find_cursor_files theme ≠ [] →
  let w' := exec (process_cursor_theme E theme) w in
  files w' !! index_theme_of theme = Some (index_theme_content (dir_name theme)) ∧
  ∃ (k : nat) printed,
    stdout w' =
    printed ++
      [Colors.GREEN +:+ ("  Converted " +:+ pretty k +:+ "/" +:+
                         pretty (length (find_cursor_files theme)) +:+
                         " cursor files") +:+ Colors.NC;
       Colors.BLUE +:+ "  Created index.theme file" +:+ Colors.NC].
Proof.
  intros Hsome. cbv zeta. unfold exec. rewrite process_cursor_theme_eq. cbv zeta.
  destruct (find_cursor_files theme) as [|f fs] eqn:Hfiles; [done|].
  cbn [snd files stdout]. split; [apply lookup_insert_eq | eauto].
Qed.






(** ** What reaches the console *)

Section Console.

Variable ok : string → Prop.

Lemma emits_ret {A} (a : A) : emits_only ok (ret a).
Proof. intros w. exists []. by rewrite app_nil_r. Qed.

Lemma emits_bind {A B} (c : M A) (k : A → M B) :
  emits_only ok c → (∀ a, emits_only ok (k a)) → emits_only ok (bind c k).
Proof.
  intros Hc Hk w. rewrite exec_bind.
  destruct (Hc w) as (e1 & He1 & H1).
  destruct (Hk (eval c w) (exec c w)) as (e2 & He2 & H2).
  exists (e1 ++ e2). split; [|by apply Forall_app].
  by rewrite He2, He1, app_assoc.
Qed.

Lemma emits_print_message color message :
  ok (color +:+ message +:+ Colors.NC) →
  emits_only ok (print_message color message).
Proof. intros Hok w. eexists. split; [reflexivity | by constructor]. Qed.

Lemma emits_mkdir_p p : emits_only ok (mkdir_p p).
Proof. intros w. exists []. by rewrite app_nil_r. Qed.

Lemma emits_bind_ok {A B} (c : M (outcome A)) (k : A → M (outcome B)) :
  emits_only ok c → (∀ a, emits_only ok (k a)) → emits_only ok (bind_ok c k).
Proof.
  intros Hc Hk. apply emits_bind; [done|].
  intros [a|e]; [apply Hk | apply emits_ret].
Qed.

Lemma emits_write_file E p content : emits_only ok (write_file E p content).
Proof.
  intros w. exists []. rewrite app_nil_r. unfold exec, write_file.
  by destruct (bool_decide _).
Qed.

Lemma emits_copy_to_aliases E content out linux_names :
  emits_only ok (copy_to_aliases E content out linux_names).
Proof.
  induction linux_names as [|a rest IH]; [apply emits_ret|].
  apply emits_bind_ok; [apply emits_write_file | done].
Qed.

End Console.

Create HintDb console.
#[local] Hint Resolve emits_ret emits_mkdir_p emits_write_file
  emits_copy_to_aliases : console.

Ltac emits :=
  repeat first
    [ lazymatch goal with
      | |- emits_only _ (bind_ok _ _) => apply emits_bind_ok; [|intros ?]
      | |- emits_only _ (bind _ _) => apply emits_bind; [|intros ?]
      end
    | apply emits_print_message; reflexivity
    | solve [auto with console] ].

Lemma convert_cursor_file_console E f out cn ln :
  emits_only not_no_mapping (convert_cursor_file E f out cn ln).
Proof.
  unfold convert_cursor_file. emits.
  destruct (convert_run E f) as [rc [|art arts]|e]; [destruct (rc =? 0)%Z ..|]; emits.
  match goal with |- emits_only _ (match ?r with _ => _ end) => destruct r end; emits.
Qed.

Lemma convert_one_console E inf_file out f n :
  emits_only not_no_mapping (convert_one E inf_file out f n).
Proof.
  unfold convert_one.
  destruct (get_cursor_name_from_inf inf_file f) as [role|] eqn:Hrole; [|emits].
  destruct (roles_mapped role (classifier_range _ _ _ Hrole)) as (_ & Hne & _).
  apply String.eqb_neq in Hne. rewrite Hne. cbn [negb].
  apply emits_bind; [apply convert_cursor_file_console|].
  intros [|]; emits.
Qed.

Lemma convert_each_console E inf_file out fs n :
  emits_only not_no_mapping (convert_each E inf_file out fs n).
Proof.
  revert n. induction fs as [|f fs IH]; intros n; [apply emits_ret|].
  cbn [convert_each]. apply emits_bind; [apply convert_one_console | done].
Qed.

Lemma process_cursor_theme_console E theme :
  emits_only not_no_mapping (process_cursor_theme E theme).
Proof.
  unfold process_cursor_theme.
  destruct (find_cursor_files theme) as [|f fs]; cbv zeta; [emits|].
  apply emits_bind; [emits|intros _].
  apply emits_bind; [emits|intros _].
  apply emits_bind; [apply convert_each_console|intros k].
  unfold create_index_theme. emits.
Qed.

(** C9: the classifier gives [None] or one of the 15 roles; each of them
    is a key of CURSOR_MAPPINGS with a non-empty alias string; and no line
    the theme processor prints is the line of its [No mapping found for]
    branch. *)
Theorem no_mapping_branch_unreachable :
  (∀ inf_file cursor_file,
     get_cursor_name_from_inf inf_file cursor_file ∈ None :: (Some <$> roles)) ∧
  Forall (λ role, is_Some (CURSOR_MAPPINGS !! role) ∧
                  String.eqb (linux_names_for role) "" = false) roles ∧
  (∀ E theme w, ∃ emitted,
     stdout (exec (process_cursor_theme E theme) w) = stdout w ++ emitted ∧
     Forall (λ line, no_mapping_line line = false) emitted).
Proof.
  split; [|split].
  - intros inf_file cursor_file.
    destruct (get_cursor_name_from_inf inf_file cursor_file) as [role|] eqn:Hrole.
    + right. apply list_elem_of_fmap. exists role. split; [done|].
      by apply classifier_range in Hrole.
    + left.
  - apply Forall_forall. intros role Hin.
    destruct (roles_mapped role Hin) as (Hsome & Hne & _).
    split; [done | by apply String.eqb_neq].
  - intros E theme w. apply process_cursor_theme_console.
Qed.

(** ** Exit codes *)

(** Neither a theme nor the loop over the themes raises. *)
Lemma process_cursor_theme_ok E theme w :
  eval (process_cursor_theme E theme) w = Ok tt.
Proof.
  unfold eval. rewrite process_cursor_theme_eq. cbv zeta.
  by destruct (find_cursor_files theme).
Qed.

Lemma process_all_ok E themes w : eval (process_all E themes) w = Ok tt.
Proof.
  revert w. induction themes as [|theme rest IH]; intros w; [done|].
  cbn [process_all]. unfold bind_ok.
  rewrite eval_bind, process_cursor_theme_ok, eval_bind. apply IH.
Qed.

Lemma exec_process_cursor_theme_eq E theme w :
  exec (process_cursor_theme E theme) w =
  let w1 :=
    mkWorld
      (stdout w ++
         [Colors.GREEN +:+ ("Processing cursor theme: " +:+ dir_name theme) +:+ Colors.NC])
      (dirs w ∪ list_to_set (ancestors_and_self (cursors_dir_of theme)))
      (files w) in
  match find_cursor_files theme with
  | [] =>
      mkWorld
        (stdout w1 ++
           [Colors.YELLOW +:+ ("  No cursor files found in " +:+ dir_name theme) +:+
              Colors.NC])
        (dirs w1) (files w1)
  | cursor_files =>
      let loop := convert_each E (find_inf_file theme) (cursors_dir_of theme)
                    cursor_files 0 in
      let w2 := exec loop w1 in
      mkWorld
        (stdout w2 ++
           [Colors.GREEN +:+
              ("  Converted " +:+ pretty (eval loop w1) +:+ "/" +:+
               pretty (length cursor_files) +:+ " cursor files") +:+ Colors.NC;
            Colors.BLUE +:+ "  Created index.theme file" +:+ Colors.NC])
        (dirs w2)
        (<[index_theme_of theme := index_theme_content (dir_name theme)]> (files w2))
  end.
Proof.
  unfold exec at 1. rewrite process_cursor_theme_eq. cbv zeta.
  by destruct (find_cursor_files theme).
Qed.

Lemma exec_process_all_cons E theme rest w :
  exec (process_all E (theme :: rest)) w =
  exec (process_all E rest) (exec (print "") (exec (process_cursor_theme E theme) w)).
Proof.
  cbn [process_all]. unfold bind_ok.
  by rewrite exec_bind, process_cursor_theme_ok, exec_bind.
Qed.

Lemma check_win2xcur_result E w :
  eval (check_win2xcur E) w = dependency_present E ∧
  dirs (exec (check_win2xcur E) w) = dirs w.
Proof.
  unfold check_win2xcur, dependency_present.
  by destruct (help_run E) as [[| |]|].
Qed.

Lemma create_directories_result E w :
  eval (create_directories E) w = bool_decide (input_dir ∈ dirs w).
Proof.
  unfold create_directories. rewrite eval_bind.
  change (eval (dir_exists input_dir) w) with (bool_decide (input_dir ∈ dirs w)).
  destruct (bool_decide (input_dir ∈ dirs w)); [|reflexivity].
  cbn [negb]. rewrite !eval_bind. reflexivity.
Qed.

(** C8: [run] ends in [sys.exit(1)] exactly when the dependency check
    fails; with the dependency there it ends in [sys.exit(0)] when the input
    directory had to be created or holds no theme directory, and by
    returning otherwise. The exit status is 1 without the dependency and 0
    with it. *)
Theorem exit_codes E w :
  eval (run E) w =
    (if negb (dependency_present E) then Exit 1
     else if negb (bool_decide (input_dir ∈ dirs w)) then Exit 0
     else match input_subdirs E with
          | [] => Exit 0
          | _ :: _ => Completed
          end) ∧
  exit_status (eval (run E) w) = (if dependency_present E then 0 else 1)%Z.
Proof.
  assert (eval (run E) w =
    (if negb (dependency_present E) then Exit 1
     else if negb (bool_decide (input_dir ∈ dirs w)) then Exit 0
     else match input_subdirs E with
          | [] => Exit 0
          | _ :: _ => Completed
          end)) as Hrun.
  { unfold run. rewrite !eval_bind.
    set (w2 := exec (print_message _ _) (exec (print_message _ _) w)).
    destruct (check_win2xcur_result E w2) as [-> Hdirs].
    destruct (dependency_present E); [|reflexivity].
    cbn [negb]. rewrite eval_bind, create_directories_result, Hdirs.
    change (dirs w2) with (dirs w).
    destruct (bool_decide (input_dir ∈ dirs w)); [|reflexivity].
    cbn [negb]. destruct (input_subdirs E); [by rewrite !eval_bind|].
    rewrite !eval_bind, process_all_ok. by rewrite !eval_bind. }
  split; [exact Hrun|].
  rewrite Hrun.
  destruct (dependency_present E); [|reflexivity].
  cbn [negb]. destruct (bool_decide _); [|reflexivity].
  by destruct (input_subdirs E).
Qed.

(** ** Worked examples *)

Example split_keeps_empty_fields : Py.split "=" "a=b=" = ["a"; "b"; ""].
Proof. reflexivity. Qed.

Example split_ws_drops_blanks : Py.split_ws "  ibeam text   xterm " = ["ibeam"; "text"; "xterm"].
Proof. reflexivity. Qed.

Example cursor_var_of_line :
  cursor_var ("  Pointer   = " +:+ quoted "Normal.cur") = "Pointer".
Proof. reflexivity. Qed.

Example stem_of_hidden_file : stem_of ".cur" = ".cur".
Proof. reflexivity. Qed.

Example stem_of_two_dots : stem_of "aero.arrow.cur" = "aero.arrow".
Proof. reflexivity. Qed.

Example install_inf_comes_first :
  find_inf_file (mkTheme "T" [mkPath "a.inf" (Text "a"); mkPath "install.inf" (Text "i")])
  = Some (mkPath "install.inf" (Text "i")).
Proof. reflexivity. Qed.

(** One file "normal.cur", no descriptor, a converter that always
    succeeds: eight aliases of the one artifact and the theme record. *)
Example normal_cur_end_to_end :
  let theme := mkTheme "Aero" [mkPath "normal.cur" (Text "ICO")] in
  let w := exec (process_cursor_theme (env_with (HelpExit 0) stub_converter [theme])
                   theme) ready_world in
  files w =
    <[index_theme_of theme := index_theme_content "Aero"]>
      (list_to_map
         ((λ alias, (cursors_dir_of theme ++ [alias], "Xcur:normal.cur")) <$>
            ["left_ptr"; "default"; "arrow"; "top_left_arrow"; "size-bdiag";
             "size-fdiag"; "size-hor"; "size-ver"])) ∧
  last (stdout w) = Some (Colors.BLUE +:+ "  Created index.theme file" +:+ Colors.NC).
Proof. split; [apply (bool_decide_unpack _); vm_compute; exact I | reflexivity]. Qed.

Example run_without_dependency :
  run (env_with HelpFileNotFound stub_converter [mixed_theme]) ready_world =
  (Exit 1,
   mkWorld
     [Colors.BLUE +:+ "Windows to Linux Cursor Converter" +:+ Colors.NC;
      Colors.BLUE +:+ "=================================" +:+ Colors.NC;
      Colors.RED +:+ "Error: win2xcur is not installed or not in PATH" +:+ Colors.NC;
      Colors.YELLOW +:+
        "Please install win2xcur from: https://github.com/quantum5/win2xcur" +:+
        Colors.NC]
     {[ input_dir ]} ∅).
Proof. reflexivity. Qed.

Example run_on_fresh_installation :
  eval (run (env_with (HelpExit 0) stub_converter [])) fresh_world = Exit 0 ∧
  input_dir ∈ dirs (exec (run (env_with (HelpExit 0) stub_converter [])) fresh_world).
Proof. split; [reflexivity | apply (bool_decide_unpack _); vm_compute; exact I]. Qed.

(** * Further properties of the script *)

(** ** Which entries of a theme directory are used *)

Lemma filter_split_perm {A} (P Q : A → bool) (l : list A) :
  (∀ x, P x = true → Q x = false) →
  List.filter P l ++ List.filter Q l ≡ₚ List.filter (λ x, P x || Q x) l.
Proof.
  intros Hdisj. induction l as [|x l IH]; [done|].
  cbn [List.filter]. destruct (P x) eqn:HP.
  - rewrite (Hdisj x HP). cbn. by rewrite IH.
  - destruct (Q x); cbn; [|done].
    rewrite <- IH. symmetry. apply Permutation_middle.
Qed.

Lemma cur_is_not_ani n : endswith ".cur" n = true → endswith ".ani" n = false.
Proof.
  unfold endswith. destruct (String.rev n) as [|c r]; [done|].
  change (String.rev ".cur") with "ruc.". change (String.rev ".ani") with "ina.".
  cbn [String.prefix].
  destruct (ascii_dec "r" c) as [<-|]; [reflexivity | discriminate].
Qed.

(** The files of a theme that are processed are its entries whose name ends
    in ".cur" or ".ani", each as often as the directory lists it. *)
Theorem find_cursor_files_spec directory :
  find_cursor_files directory ≡ₚ
    List.filter (λ p, is_cursor_name (name p)) (listing directory) ∧
  ∀ p, p ∈ find_cursor_files directory ↔
       p ∈ listing directory ∧ is_cursor_name (name p) = true.
Proof.
  assert (find_cursor_files directory ≡ₚ
            List.filter (λ p, is_cursor_name (name p)) (listing directory)) as Hperm.
  { unfold find_cursor_files, glob_ext, is_cursor_name.
    apply (filter_split_perm (λ p, endswith ".cur" (name p))
                             (λ p, endswith ".ani" (name p))).
    intros p. apply cur_is_not_ani. }
  split; [exact Hperm|].
  intros p. rewrite Hperm, !list_elem_of_In, filter_In. done.
Qed.

Lemma head_filter_app {A} (P Q : A → bool) (l : list A) q :
  head (List.filter P l ++ List.filter Q l) = Some q →
  q ∈ l ∧ (P q = true ∨ (Forall (λ x, P x = false) l ∧ Q q = true)).
Proof.
  destruct (List.filter P l) as [|a fp] eqn:HP.
  - intros Hq. cbn in Hq.
    assert (In q (List.filter Q l)) as Hin
      by (destruct (List.filter Q l); [done | injection Hq as ->; by left]).
    apply filter_In in Hin as [Hin HQ].
    split; [by apply list_elem_of_In|]. right. split; [|done].
    apply Forall_forall. intros x Hx. apply list_elem_of_In in Hx.
    destruct (P x) eqn:HPx; [|done].
    assert (In x (List.filter P l)) as Hc by (apply filter_In; done).
    rewrite HP in Hc. done.
  - intros [= <-].
    assert (In a (List.filter P l)) as Hin by (rewrite HP; by left).
    apply filter_In in Hin as [Hin Ha].
    split; [by apply list_elem_of_In | by left].
Qed.

(** The descriptor that is used is an entry ending in ".inf"; it is one
    named "install.inf", unless the directory has no such entry that
    exists. *)
Theorem install_inf_has_precedence directory inf :
  find_inf_file directory = Some inf →
  inf ∈ listing directory ∧
  endswith ".inf" (name inf) = true ∧
  (name inf = "install.inf" ∨
   Forall (λ p, (String.eqb (name p) "install.inf" && exists_ p) = false)
     (listing directory)).
Proof.
  unfold find_inf_file, glob_name, glob_ext. cbv zeta.
  intros Hhead. apply head_filter_app in Hhead as [Hin [HP | [Hnone HQ]]].
  - apply andb_true_iff in HP as [Hname _]. apply String.eqb_eq in Hname.
    split; [done|]. split; [by rewrite Hname | by left].
  - split; [done|]. split; [done | by right].
Qed.

Lemma install_inf_has_precedence_witness :
  let install := mkPath "install.inf" (Text "[Strings]") in
  let directory := mkTheme "T" [mkPath "a.inf" (Text "a"); install] in
  find_inf_file directory = Some install ∧ name install = "install.inf".
Proof.
  intros install directory.
  destruct (install_inf_has_precedence directory install eq_refl)
    as (_ & _ & [Hname | Hnone]).
  - exact (conj eq_refl Hname).
  - exact (conj eq_refl eq_refl).
Defined.

(** A theme has no descriptor exactly when none of its entries ends in
    ".inf". *)
Theorem no_descriptor_iff_no_inf directory :
  find_inf_file directory = None ↔
  Forall (λ p, endswith ".inf" (name p) = false) (listing directory).
Proof.
  unfold find_inf_file, glob_name, glob_ext. cbv zeta.
  induction (listing directory) as [|x l IH]; [done|].
  cbn [List.filter]. rewrite Forall_cons.
  destruct (endswith ".inf" (name x)) eqn:Hx.
  - split; [|intros [? _]; done].
    destruct (String.eqb (name x) "install.inf" && exists_ x); [done|].
    intros Hnone. exfalso. cbn in Hnone.
    destruct (List.filter _ l); cbn in Hnone; discriminate.
  - assert (String.eqb (name x) "install.inf" = false) as ->.
    { apply String.eqb_neq. intros Heq. by rewrite Heq in Hx. }
    cbn. rewrite IH. split; [by intros ? | by intros [_ ?]].
Qed.

(** ** When the file name decides *)

Lemma find_none_iff {A} (f : A → bool) (l : list A) :
  List.find f l = None ↔ Forall (λ x, f x = false) l.
Proof.
  induction l as [|x l IH]; [done|].
  cbn [List.find]. rewrite Forall_cons. destruct (f x).
  - split; [done | by intros [? _]].
  - rewrite IH. split; [by intros ? | by intros [_ ?]].
Qed.

Lemma any_in_false_iff pats base_name :
  Py.any_in pats base_name = false ↔
  Forall (λ x, Py.contains x base_name = false) pats.
Proof.
  unfold Py.any_in. induction pats as [|x pats IH]; [done|].
  cbn [existsb]. rewrite Forall_cons, orb_false_iff, IH. done.
Qed.

(** A file without descriptor hit is unresolved exactly when none of the
    29 substrings of the rules occurs in its lowered stem. *)
Theorem unresolved_iff_no_pattern cursor_file :
  get_cursor_name_from_inf None cursor_file = None ↔
  Forall (λ x, Py.contains x (Py.lower (stem cursor_file)) = false) all_patterns.
Proof.
  unfold get_cursor_name_from_inf, fallback.
  rewrite match_by_pattern_rules. unfold first_matching_rule.
  rewrite fmap_None, find_none_iff. unfold all_patterns.
  rewrite Forall_concat, Forall_fmap.
  apply Forall_iff. intros [role pats]. apply any_in_false_iff.
Qed.

(** A role given by the file name is justified by a substring of the rule
    of that role, found in the lowered stem. *)
Theorem resolved_by_some_pattern cursor_file role :
  get_cursor_name_from_inf None cursor_file = Some role →
  ∃ pats x, (role, pats) ∈ pattern_rules ∧ x ∈ pats ∧
            Py.contains x (Py.lower (stem cursor_file)) = true.
Proof.
  unfold get_cursor_name_from_inf, fallback.
  rewrite match_by_pattern_rules. unfold first_matching_rule.
  intros Hfind. apply fmap_Some in Hfind as ([r pats] & Hfind & ->).
  apply find_some in Hfind as [Hin Hany].
  apply existsb_exists in Hany as (x & Hx & Hcont).
  exists pats, x. by rewrite !list_elem_of_In.
Qed.

Lemma resolved_by_some_pattern_witness :
  ∃ pats x, ("Text", pats) ∈ pattern_rules ∧ x ∈ pats ∧
            Py.contains x (Py.lower (stem (mkPath "IBeam.cur" (Text "")))) = true.
Proof.
  exact (resolved_by_some_pattern (mkPath "IBeam.cur" (Text "")) "Text" eq_refl).
Defined.

(** ** How a descriptor line is read *)

(** A descriptor line of the form [key= "file" ...], before which no line
    names the file, decides the role: the key is taken up to its first
    [=], stripped and lowered, and what follows the closing quote is
    ignored. *)
Theorem descriptor_line_is_read inf cursor_file content pre key rest post role :
  at_path inf = Text content →
  Py.split Py.newline content =
    pre ++ (key +:+ assoc_needle (name cursor_file) +:+ rest) :: post →
  Forall (λ line, Py.contains (assoc_needle (name cursor_file)) line = false) pre →
  Py.contains "=" key = false →
  mapping !! Py.lower (Py.strip key) = Some role →
  get_cursor_name_from_inf (Some inf) cursor_file = Some role.
Proof.
  intros Hinf Hlines Hpre Hkey Hrole.
  rewrite get_cursor_name_from_inf_eq.
  destruct inf as [n nd]. simpl in Hinf. subst nd.
  unfold first_association. rewrite Hlines.
  rewrite find_after_misses by (done || apply contains_app).
  unfold cursor_var, assoc_needle.
  change ("= " +:+ Py.dquote +:+ name cursor_file +:+ Py.dquote)
    with (String "=" (" " +:+ Py.dquote +:+ name cursor_file +:+ Py.dquote)).
  rewrite append_cons, hd_split_before by done.
  exact Hrole.
Qed.

Lemma descriptor_line_is_read_witness :
  let inf := descriptor ["[Strings]";
                         "  HORZ  = " +:+ quoted "x.cur" +:+ " ; left and right"] in
  get_cursor_name_from_inf (Some inf) (mkPath "x.cur" (Text "")) = Some "Horizontal".
Proof.
  intros inf.
  eapply (descriptor_line_is_read inf (mkPath "x.cur" (Text "")) _
            ["[Strings]"] "  HORZ  " " ; left and right" [""] "Horizontal");
    [reflexivity | reflexivity | by repeat constructor | reflexivity | reflexivity].
Defined.

(** ** The conversion driver *)




(** ** The loop: count, overwriting and what is left alone *)

Lemma convert_each_count E inf_file out cursor_files n w :
  has_dir out w →
  eval (convert_each E inf_file out cursor_files n) w =
  n + length (List.filter (converts E inf_file) cursor_files).
Proof.
  revert n w. induction cursor_files as [|f fs IH]; intros n w Hout.
  - cbn. lia.
  - cbn [convert_each List.filter].
    destruct (convert_one_effect E inf_file out f n w) as (Hn & Hdirs & _).
    rewrite eval_bind, IH, Hn.
    + rewrite (bool_decide_eq_true_2 _ Hout), andb_true_r.
      destruct (converts E inf_file f); cbn [length]; lia.
    + destruct Hout as [?|?]; [by left | right; by rewrite Hdirs].
Qed.

(** With the directory of the aliases in place, the count the loop
    returns is the count it started from plus the number of files that are
    classified and whose tool run succeeds, so it never exceeds the start
    plus the number of files; nothing else of the world plays a part. *)
Theorem converted_count_is_exact E inf_file out cursor_files n w :
  out ∈ dirs w →
  eval (convert_each E inf_file out cursor_files n) w =
    n + length (List.filter (converts E inf_file) cursor_files) ∧
  eval (convert_each E inf_file out cursor_files n) w ≤ n + length cursor_files.
Proof.
  intros Hout. rewrite convert_each_count by (by right). split; [done|].
  apply Nat.add_le_mono_l, filter_length_le.
Qed.

Lemma converted_count_is_exact_witness :
  let E := env_with (HelpExit 0) static_only_converter [] in
  let out := ["output"; "T"; "cursors"] in
  eval (convert_each E None out
          [mkPath "busy.ani" (Text "RIFF"); mkPath "zzz.cur" (Text "ICO");
           mkPath "beam.cur" (Text "ICO")] 0) (mkWorld [] {[ out ]} ∅) = 1.
Proof.
  intros E out.
  refine (proj1 (converted_count_is_exact E None out
                   [mkPath "busy.ani" (Text "RIFF"); mkPath "zzz.cur" (Text "ICO");
                    mkPath "beam.cur" (Text "ICO")] 0 (mkWorld [] {[ out ]} ∅) _)).
  apply (bool_decide_unpack _). vm_compute. exact I.
Defined.

Lemma aliased_is_role role alias : alias ∈ target_aliases role → role ∈ roles.
Proof.
  unfold target_aliases, linux_names_for.
  destruct (CURSOR_MAPPINGS !! role) as [names|] eqn:Hrole;
    [|cbn; by intros ?%elem_of_nil].
  intros _. apply elem_of_list_to_map_2 in Hrole.
  repeat (apply elem_of_cons in Hrole as [Hrole|Hrole];
          [injection Hrole as -> _; apply (bool_decide_unpack _); vm_compute; exact I|]).
  by apply elem_of_nil in Hrole.
Qed.

Lemma roles_aliases_apart :
  Forall (λ role1, Forall (aliases_apart role1) roles) roles.
Proof. apply (bool_decide_unpack _). vm_compute. exact I. Qed.

(** No alias is shared by two roles of the table. *)
Lemma alias_has_one_role role1 role2 alias :
  alias ∈ target_aliases role1 → alias ∈ target_aliases role2 → role1 = role2.
Proof.
  intros H1 H2.
  pose proof roles_aliases_apart as Hall.
  rewrite Forall_forall in Hall.
  specialize (Hall role1 (aliased_is_role _ _ H1)).
  rewrite Forall_forall in Hall.
  destruct (Hall role2 (aliased_is_role _ _ H2)) as [?|Hapart]; [done|].
  rewrite Forall_forall in Hapart. by destruct (Hapart alias H1).
Qed.

Lemma alias_path_inj (out : path) (a b : string) :
  out ++ [a] = out ++ [b] → a = b.
Proof. intros H. apply app_inv_head in H. by injection H. Qed.



(** Overwriting: with the directory of the aliases in place, after the
    loop the aliases of a role hold the artifact of the last file of that
    role that converted. *)
Theorem last_converted_file_wins E inf_file out pre f post n w role
    converted_file rest alias :
  out ∈ dirs w →
  get_cursor_name_from_inf inf_file f = Some role →
  convert_run E f = ToolExit 0 (converted_file :: rest) →
  Forall (λ g, converts E inf_file g = true →
               get_cursor_name_from_inf inf_file g ≠ Some role) post →
  alias ∈ target_aliases role →
  files (exec (convert_each E inf_file out (pre ++ f :: post) n) w)
    !! (out ++ [alias]) = Some converted_file.2.
Proof.
  intros Hout Hrole Hrun Hpost Halias.
  unfold exec at 1. rewrite convert_each_middle. cbv zeta.
  pose proof (proj1 (convert_each_frame E inf_file out pre n w)) as Hdirs.
  set (w0 := exec (convert_each E inf_file out pre n) w) in *.
  set (k0 := eval (convert_each E inf_file out pre n) w).
  assert (has_dir out w0) as Hout0 by (right; by rewrite Hdirs).
  destruct (convert_one_effect E inf_file out f k0 w0) as (_ & Hd1 & Hf1).
  set (k := eval (convert_one _ _ _ _ _) _).
  set (w1 := exec (convert_one _ _ _ _ _) _) in *.
  assert (files w1 !! (out ++ [alias]) = Some converted_file.2) as Hw1.
  { rewrite Hf1, Hrole, Hrun. cbn [converted_artifact Z.eqb].
    rewrite (bool_decide_eq_true_2 _ Hout0).
    rewrite lookup_write_aliases, bool_decide_eq_true_2; [done|].
    apply list_elem_of_fmap. eauto. }
  clearbody k w1. clear Hd1 Hf1. revert k w1 Hw1.
  induction Hpost as [|g post Hg _ IH]; intros k w1 Hw1; [done|].
  cbn [convert_each]. rewrite bind_run. apply IH.
  destruct (convert_one_effect E inf_file out g k w1) as (_ & _ & ->).
  destruct (get_cursor_name_from_inf inf_file g) as [role_g|] eqn:Hrole_g; [|done].
  destruct (converted_artifact (convert_run E g)) as [c|] eqn:Hc; [|done].
  destruct (bool_decide (has_dir out w1)); [|done].
  assert (converts E inf_file g = true) as Hconv.
  { unfold converts. rewrite Hrole_g, Hc. by apply bool_decide_eq_true. }
  rewrite lookup_write_aliases, bool_decide_eq_false_2; [done|].
  intros (b & Heq & Hb)%list_elem_of_fmap.
  apply alias_path_inj in Heq as <-.
  apply (Hg Hconv). f_equal. eapply alias_has_one_role; done.
Qed.

Lemma last_converted_file_wins_witness :
  let E := env_with (HelpExit 0) stub_converter [] in
  let out := ["output"; "T"; "cursors"] in
  files (exec (convert_each E None out
                 [mkPath "wait.cur" (Text "ICO"); mkPath "busy.cur" (Text "ICO");
                  mkPath "beam.cur" (Text "ICO")] 0) (mkWorld [] {[ out ]} ∅))
    !! (out ++ ["watch"]) = Some "Xcur:busy.cur".
Proof.
  intros E out.
  apply (last_converted_file_wins E None out
           [mkPath "wait.cur" (Text "ICO")] (mkPath "busy.cur" (Text "ICO"))
           [mkPath "beam.cur" (Text "ICO")] 0 (mkWorld [] {[ out ]} ∅) "Busy"
           ("cursor", "Xcur:busy.cur") [] "watch").
  - apply (bool_decide_unpack _). vm_compute. exact I.
  - reflexivity.
  - reflexivity.
  - repeat constructor. intros _. discriminate.
  - apply (bool_decide_unpack _). vm_compute. exact I.
Defined.

(** ** What a theme's processing writes *)

(** Processing a theme makes its cursors directory (with its parents) and
    no other directory, and changes no file besides the theme's
    index.theme and the aliases of the 15 roles in its cursors
    directory. *)
Theorem process_cursor_theme_frame E theme w :
  dirs (exec (process_cursor_theme E theme) w) =
    dirs w ∪ {[ output_dir; output_dir ++ [dir_name theme]; cursors_dir_of theme ]} ∧
  ∀ p, ¬ theme_targets theme p →
       files (exec (process_cursor_theme E theme) w) !! p = files w !! p.
Proof.
  rewrite exec_process_cursor_theme_eq. cbv zeta.
  assert (list_to_set (ancestors_and_self (cursors_dir_of theme)) =@{gset path}
          {[ output_dir; output_dir ++ [dir_name theme]; cursors_dir_of theme ]})
    as -> by (cbn; by rewrite (right_id_L ∅ (∪)), !(assoc_L (∪))).
  destruct (find_cursor_files theme) as [|f fs]; [done|].
  match goal with |- context [exec (convert_each ?E ?i ?o ?l ?n) ?w1] =>
    destruct (convert_each_frame E i o l n w1) as [Hdirs Hfiles] end.
  cbn [dirs files]. split; [by rewrite Hdirs|].
  intros p Hp.
  rewrite lookup_insert_ne by (intros <-; apply Hp; by left).
  rewrite Hfiles; [done|]. intros Ha. apply Hp. by right.
Qed.

(** The count line of a theme with cursor files reads k/t, where k is the
    number of its files that are classified and convert and t the number of
    its cursor files; the line of the record follows and ends the output. *)
Theorem theme_report_is_exact E theme w :
  find_cursor_files theme ≠ [] →
  ∃ printed,
    stdout (exec (process_cursor_theme E theme) w) =
    printed ++
      [Colors.GREEN +:+
         ("  Converted " +:+
          pretty (length (List.filter (converts E (find_inf_file theme))
                            (find_cursor_files theme))) +:+ "/" +:+
          pretty (length (find_cursor_files theme)) +:+ " cursor files") +:+
         Colors.NC;
       Colors.BLUE +:+ "  Created index.theme file" +:+ Colors.NC].
Proof.
  intros Hsome. rewrite exec_process_cursor_theme_eq. cbv zeta.
  destruct (find_cursor_files theme) as [|f fs] eqn:Hfs; [done|].
  rewrite convert_each_count; [cbn [stdout]; eauto|].
  right. cbn. set_unfold. auto.
Qed.

Lemma theme_report_is_exact_witness :
  let E := env_with (HelpExit 0) static_only_converter [mixed_theme] in
  ∃ printed,
    stdout (exec (process_cursor_theme E mixed_theme) ready_world) =
    printed ++
      [Colors.GREEN +:+ "  Converted 2/4 cursor files" +:+ Colors.NC;
       Colors.BLUE +:+ "  Created index.theme file" +:+ Colors.NC].
Proof.
  intros E.
  assert (find_cursor_files mixed_theme ≠ []) as Hsome by discriminate.
  exact (theme_report_is_exact E mixed_theme ready_world Hsome).
Defined.

(** ** The run as a whole *)

Lemma create_directories_ready E w :
  input_dir ∈ dirs w →
  create_directories E w =
  (true, mkWorld (stdout w) (dirs w ∪ {[ output_dir ]}) (files w)).
Proof.
  intros Hin. unfold create_directories. rewrite bind_run.
  change (eval (dir_exists input_dir) w) with (bool_decide (input_dir ∈ dirs w)).
  rewrite bool_decide_eq_true_2 by done. cbn [negb].
  change (exec (dir_exists input_dir) w) with w.
  rewrite !bind_run.
  assert (list_to_set (ancestors_and_self output_dir) =@{gset path} {[ output_dir ]})
    as Hset by (cbn; by rewrite (right_id_L ∅ (∪))).
  unfold eval, exec, mkdir_p, dir_exists, ret. cbn [fst snd dirs stdout files].
  rewrite Hset, bool_decide_eq_true_2 by (apply elem_of_union_r; by apply elem_of_singleton).
  reflexivity.
Qed.

(** With the input directory in place, [create_directories] makes the
    output directory, returns [True] and prints nothing: its
    "Created output directory" line follows a [mkdir] of that very
    directory and is never printed. *)
Theorem create_directories_is_silent E w :
  input_dir ∈ dirs w →
  create_directories E w =
  (true, mkWorld (stdout w) (dirs w ∪ {[ output_dir ]}) (files w)).
Proof. apply create_directories_ready. Qed.

Lemma create_directories_is_silent_witness :
  create_directories (env_with (HelpExit 0) stub_converter []) ready_world =
  (true, mkWorld [] ({[ input_dir ]} ∪ {[ output_dir ]}) ∅).
Proof.
  apply (create_directories_is_silent (env_with (HelpExit 0) stub_converter [])
           ready_world).
  apply (bool_decide_unpack _). vm_compute. exact I.
Defined.

Lemma create_directories_first_time E w :
  input_dir ∉ dirs w →
  create_directories E w =
  (false,
   mkWorld
     (stdout w ++
        [Colors.YELLOW +:+ ("Created input directory: " +:+ path_str E input_dir) +:+
           Colors.NC;
         Colors.BLUE +:+
           "Please place your Windows cursor folders (with .cur/.ani files and install.inf) in this directory" +:+
           Colors.NC;
         Colors.BLUE +:+ "Each cursor theme should be in its own subfolder" +:+
           Colors.NC])
     (dirs w ∪ {[ input_dir ]}) (files w)).
Proof.
  intros Hnew. unfold create_directories. rewrite bind_run.
  change (eval (dir_exists input_dir) w) with (bool_decide (input_dir ∈ dirs w)).
  rewrite bool_decide_eq_false_2 by done. cbn [negb].
  change (exec (dir_exists input_dir) w) with w.
  unfold bind, print_message, print, mkdir_p, ret. cbn.
  by rewrite (right_id_L ∅ (∪)), <- !app_assoc.
Qed.

Lemma check_win2xcur_frame E w :
  files (exec (check_win2xcur E) w) = files w ∧
  dirs (exec (check_win2xcur E) w) = dirs w.
Proof. unfold check_win2xcur. by destruct (help_run E) as [[| |]|]. Qed.

Lemma run_stops_early E w :
  dependency_present E = false ∨ input_dir ∉ dirs w →
  files (exec (run E) w) = files w ∧
  dirs (exec (run E) w) ⊆ dirs w ∪ {[ input_dir ]}.
Proof.
  intros Hstop. unfold run. rewrite !exec_bind.
  set (w2 := exec (print_message _ _) (exec (print_message _ _) w)).
  destruct (check_win2xcur_result E w2) as [-> _].
  destruct (check_win2xcur_frame E w2) as [Hfiles Hdirs].
  change (files w2) with (files w) in Hfiles.
  change (dirs w2) with (dirs w) in Hdirs.
  set (w3 := exec (check_win2xcur E) w2) in *. clearbody w3.
  destruct (dependency_present E); cbn [negb].
  - destruct Hstop as [?|Hnew]; [done|].
    rewrite exec_bind. unfold eval, exec.
    rewrite !create_directories_first_time by (by rewrite Hdirs).
    cbn. by rewrite Hfiles, Hdirs.
  - cbn. rewrite Hfiles, Hdirs. split; [done | apply union_subseteq_l].
Qed.

(** A run that stops at the dependency check or at the missing input
    directory writes no file and makes no directory but [input/]; in
    particular it never makes the output directory. *)
Theorem early_exit_writes_nothing E w :
  dependency_present E = false ∨ input_dir ∉ dirs w →
  files (exec (run E) w) = files w ∧
  dirs (exec (run E) w) ⊆ dirs w ∪ {[ input_dir ]}.
Proof. apply run_stops_early. Qed.

Lemma early_exit_writes_nothing_witness :
  files (exec (run (env_with (HelpExit 127) stub_converter [mixed_theme]))
           ready_world) = ∅.
Proof.
  exact (proj1 (early_exit_writes_nothing
                  (env_with (HelpExit 127) stub_converter [mixed_theme])
                  ready_world (or_introl eq_refl))).
Defined.

Lemma check_win2xcur_ok E w :
  dependency_present E = true → check_win2xcur E w = (true, w).
Proof.
  unfold dependency_present, check_win2xcur.
  destruct (help_run E) as [[| |]|]; [by destruct w | done ..].
Qed.

Lemma process_cursor_theme_keeps E theme w t :
  dirs w ⊆ dirs (exec (process_cursor_theme E theme) w) ∧
  cursors_dir_of theme ∈ dirs (exec (process_cursor_theme E theme) w) ∧
  (files w !! (output_dir ++ [t; "index.theme"]) = Some (index_theme_content t) →
   files (exec (process_cursor_theme E theme) w) !! (output_dir ++ [t; "index.theme"])
   = Some (index_theme_content t)).
Proof.
  rewrite exec_process_cursor_theme_eq. cbv zeta.
  assert (cursors_dir_of theme ∈
            (list_to_set (ancestors_and_self (cursors_dir_of theme)) : gset path))
    as Hself by (cbn; set_unfold; auto).
  destruct (find_cursor_files theme) as [|f fs].
  - cbn [dirs files]. split; [apply union_subseteq_l|].
    split; [by apply elem_of_union_r | done].
  - match goal with |- context [exec (convert_each ?E ?i ?o ?l ?n) ?w1] =>
      destruct (convert_each_frame E i o l n w1) as [Hdirs Hfiles] end.
    cbn [dirs files]. rewrite Hdirs. cbn [dirs].
    split; [apply union_subseteq_l|]. split; [by apply elem_of_union_r|].
    intros Hidx. destruct (decide (t = dir_name theme)) as [->|Hne].
    + apply lookup_insert_eq.
    + rewrite lookup_insert_ne by (unfold index_theme_of; cbn; congruence).
      rewrite Hfiles; [done|].
      intros (role & a & _ & _ & Heq). discriminate Heq.
Qed.

Lemma process_all_keeps E themes w t :
  dirs w ⊆ dirs (exec (process_all E themes) w) ∧
  (files w !! (output_dir ++ [t; "index.theme"]) = Some (index_theme_content t) →
   files (exec (process_all E themes) w) !! (output_dir ++ [t; "index.theme"])
   = Some (index_theme_content t)).
Proof.
  revert w. induction themes as [|theme rest IH]; intros w; [done|].
  rewrite exec_process_all_cons.
  destruct (process_cursor_theme_keeps E theme w t) as (Hd & _ & Hf).
  set (w1 := exec (process_cursor_theme E theme) w) in *.
  destruct (IH (exec (print "") w1)) as [Hd' Hf'].
  split; [by etrans | auto].
Qed.

Lemma process_all_reaches E themes theme w :
  theme ∈ themes →
  cursors_dir_of theme ∈ dirs (exec (process_all E themes) w) ∧
  match find_cursor_files theme with
  | [] => True
  | _ :: _ =>
      files (exec (process_all E themes) w) !! index_theme_of theme =
      Some (index_theme_content (dir_name theme))
  end.
Proof.
  revert w. induction themes as [|t rest IH]; intros w Hin;
    [by apply elem_of_nil in Hin|].
  rewrite exec_process_all_cons.
  set (w1 := exec (process_cursor_theme E t) w).
  apply elem_of_cons in Hin as [->|Hin]; [|by apply IH].
  destruct (process_all_keeps E rest (exec (print "") w1) (dir_name t)) as [Hd Hf].
  destruct (process_cursor_theme_keeps E t w (dir_name t)) as (_ & Hc & _).
  split; [by apply Hd|].
  destruct (find_cursor_files t) as [|f fs] eqn:Hfs; [done|].
  apply Hf.
  apply (theme_with_files_is_indexed E t w). by rewrite Hfs.
Qed.

Lemma run_completed_eq E w :
  dependency_present E = true → input_dir ∈ dirs w → input_subdirs E ≠ [] →
  run E w =
  let w1 :=
    mkWorld
      (stdout w ++
         [Colors.BLUE +:+ "Windows to Linux Cursor Converter" +:+ Colors.NC;
          Colors.BLUE +:+ "=================================" +:+ Colors.NC;
          Colors.GREEN +:+
            ("Found " +:+ pretty (length (input_subdirs E)) +:+
             " cursor theme(s) to process") +:+ Colors.NC])
      (dirs w ∪ {[ output_dir ]}) (files w) in
  let w2 := exec (process_all E (input_subdirs E)) w1 in
  (Completed,
   mkWorld
     (stdout w2 ++
        [Colors.GREEN +:+ "Conversion completed!" +:+ Colors.NC;
         Colors.BLUE +:+
           ("Converted cursor themes are available in: " +:+ path_str E output_dir) +:+
           Colors.NC;
         Colors.BLUE +:+
           "To install a theme, copy it to ~/.icons/ or /usr/share/icons/" +:+
           Colors.NC])
     (dirs w2) (files w2)).
Proof.
  intros Hdep Hin Hthemes. unfold run.
  rewrite !bind_run. unfold eval, exec.
  rewrite !check_win2xcur_ok by done. cbn [fst snd negb].
  rewrite !bind_run. unfold eval, exec.
  rewrite !create_directories_ready by done. cbn [fst snd negb].
  destruct (input_subdirs E) as [|t ts]; [done|].
  rewrite bind_run, (bind_run (process_all E (t :: ts))), process_all_ok.
  rewrite !bind_run. unfold eval, exec, print_message, print, ret.
  cbn [fst snd stdout dirs files].
  by rewrite <- !app_assoc.
Qed.

(** With the dependency and the input directory in place, a run over at
    least one theme directory returns instead of exiting, and leaves for
    every theme directory its cursors directory and, when the theme has a
    cursor file, its index.theme. *)
Theorem completed_run_serves_every_theme E w theme :
  dependency_present E = true →
  input_dir ∈ dirs w →
  theme ∈ input_subdirs E →
  eval (run E) w = Completed ∧
  cursors_dir_of theme ∈ dirs (exec (run E) w) ∧
  match find_cursor_files theme with
  | [] => True
  | _ :: _ =>
      files (exec (run E) w) !! index_theme_of theme =
      Some (index_theme_content (dir_name theme))
  end.
Proof.
  intros Hdep Hin Htheme.
  assert (input_subdirs E ≠ []) as Hne
    by (intros Hnil; rewrite Hnil in Htheme; by apply elem_of_nil in Htheme).
  unfold eval, exec. rewrite run_completed_eq by done. cbv zeta.
  cbn [fst snd dirs files]. split; [done|].
  by apply process_all_reaches.
Qed.

Lemma completed_run_serves_every_theme_witness :
  let E := env_with (HelpExit 0) static_only_converter [empty_theme; mixed_theme] in
  eval (run E) ready_world = Completed ∧
  files (exec (run E) ready_world) !! index_theme_of mixed_theme =
    Some (index_theme_content "Aero").
Proof.
  intros E.
  assert (input_dir ∈ dirs ready_world) as Hin
    by (apply (bool_decide_unpack _); vm_compute; exact I).
  assert (mixed_theme ∈ input_subdirs E) as Htheme by (right; left).
  destruct (completed_run_serves_every_theme E ready_world mixed_theme
              eq_refl Hin Htheme) as (Hret & _ & Hindex).
  exact (conj Hret Hindex).
Defined.

(** ** The theme record *)

Lemma split_line sep s t :
  Py.contains (String sep EmptyString) s = false →
  Py.split sep (s +:+ String sep t) = s :: Py.split sep t.
Proof.
  induction s as [|a s IH]; intros Hs.
  - change ("" +:+ String sep t) with (String sep t).
    cbn [Py.split]. by rewrite Ascii.eqb_refl.
  - apply contains_char_cons in Hs as [Hne Hs].
    rewrite append_cons. cbn [Py.split].
    apply Ascii.eqb_neq in Hne. by rewrite Hne, IH.
Qed.

Lemma contains_char_app c a s :
  Py.contains (String c EmptyString) a = false →
  Py.contains (String c EmptyString) s = false →
  Py.contains (String c EmptyString) (a +:+ s) = false.
Proof.
  intros Ha Hs. induction a as [|x a IH]; [done|].
  apply contains_char_cons in Ha as [Hne Ha].
  rewrite append_cons, contains_unfold, IH by done.
  cbn [String.prefix]. destruct (ascii_dec c x) as [->|]; done.
Qed.

Lemma append_assoc a b c : (a +:+ b) +:+ c = a +:+ (b +:+ c).
Proof. induction a as [|x a IH]; [done|]. by rewrite !append_cons, IH. Qed.

(** When the theme's output directory exists and the theme name has no
    line break, [create_index_theme] returns normally and the record it
    writes consists of four lines, each closed by a line break: the header,
    the name, the comment naming the theme, and the inheritance from
    "core". *)
Theorem index_theme_has_four_lines E (theme : path) theme_name w :
  theme ∈ dirs w →
  Py.contains (String Py.newline EmptyString) theme_name = false →
  eval (create_index_theme E theme theme_name) w = Ok tt ∧
  (Py.split Py.newline <$>
     files (exec (create_index_theme E theme theme_name) w) !! (theme ++ ["index.theme"]))
  = Some ["[Icon Theme]";
          "Name=" +:+ theme_name;
          "Comment=Converted Windows cursor theme: " +:+ theme_name;
          "Inherits=core";
          ""].
Proof.
  intros Hdir Hname. unfold eval, exec. rewrite create_index_theme_eq.
  rewrite bool_decide_eq_true_2 by (by right).
  cbn [fst snd files]. split; [done|].
  rewrite lookup_insert_eq. cbn [fmap option_fmap option_map]. f_equal.
  unfold index_theme_content.
  rewrite split_line by reflexivity.
  rewrite <- (append_assoc "Name=" theme_name).
  rewrite split_line by (apply contains_char_app; [reflexivity | done]).
  rewrite <- (append_assoc "Comment=Converted Windows cursor theme: " theme_name).
  rewrite split_line by (apply contains_char_app; [reflexivity | done]).
  reflexivity.
Qed.

Lemma index_theme_has_four_lines_witness :
  let E := env_with (HelpExit 0) stub_converter [] in
  (Py.split Py.newline <$>
     files (exec (create_index_theme E ["output"; "Aero"] "Aero")
              (mkWorld [] {[ ["output"; "Aero"] ]} ∅))
       !! ["output"; "Aero"; "index.theme"])
  = Some ["[Icon Theme]"; "Name=Aero";
          "Comment=Converted Windows cursor theme: Aero"; "Inherits=core"; ""].
Proof.
  intros E.
  refine (proj2 (index_theme_has_four_lines E ["output"; "Aero"] "Aero"
                   (mkWorld [] {[ ["output"; "Aero"] ]} ∅) _ eq_refl)).
  apply (bool_decide_unpack _). vm_compute. exact I.
Defined.

(** ** Where a run writes *)

Lemma process_all_below_output E themes w p :
  (∀ rest, p ≠ output_dir ++ rest) →
  files (exec (process_all E themes) w) !! p = files w !! p.
Proof.
  intros Hp. revert w. induction themes as [|theme rest IH]; intros w; [done|].
  rewrite exec_process_all_cons, IH.
  change (files (exec (print "") ?x)) with (files x).
  rewrite exec_process_cursor_theme_eq. cbv zeta.
  destruct (find_cursor_files theme) as [|f fs]; [done|].
  match goal with |- context [exec (convert_each ?E ?i ?o ?l ?n) ?w1] =>
    destruct (convert_each_frame E i o l n w1) as [_ Hfiles] end.
  cbn [files].
  rewrite lookup_insert_ne by (intros <-; by apply (Hp [dir_name theme; "index.theme"])).
  rewrite Hfiles; [done|].
  intros (role & a & _ & _ & ->). by apply (Hp [dir_name theme; "cursors"; a]).
Qed.

Lemma run_no_themes_eq E w :
  dependency_present E = true → input_dir ∈ dirs w → input_subdirs E = [] →
  run E w =
  (Exit 0,
   mkWorld
     (stdout w ++
        [Colors.BLUE +:+ "Windows to Linux Cursor Converter" +:+ Colors.NC;
         Colors.BLUE +:+ "=================================" +:+ Colors.NC;
         Colors.YELLOW +:+
           ("No cursor theme directories found in " +:+ path_str E input_dir) +:+
           Colors.NC;
         Colors.BLUE +:+
           "Please create subdirectories in input/ for each cursor theme" +:+
           Colors.NC])
     (dirs w ∪ {[ output_dir ]}) (files w)).
Proof.
  intros Hdep Hin Hthemes. unfold run.
  rewrite !bind_run. unfold eval, exec.
  rewrite !check_win2xcur_ok by done. cbn [fst snd negb].
  rewrite !bind_run. unfold eval, exec.
  rewrite !create_directories_ready by done. cbn [fst snd negb].
  rewrite Hthemes.
  rewrite !bind_run. unfold eval, exec, print_message, print, ret.
  cbn [fst snd stdout dirs files].
  by rewrite <- !app_assoc.
Qed.

(** However a run ends, every file it writes lies below [output/]: any
    other path of the file map is as before. *)
Theorem run_writes_only_below_output E w p :
  (∀ rest, p ≠ output_dir ++ rest) →
  files (exec (run E) w) !! p = files w !! p.
Proof.
  intros Hp.
  destruct (dependency_present E) eqn:Hdep;
    [|by destruct (run_stops_early E w (or_introl Hdep)) as [-> _]].
  destruct (decide (input_dir ∈ dirs w)) as [Hin|Hnew];
    [|by destruct (run_stops_early E w (or_intror Hnew)) as [-> _]].
  destruct (input_subdirs E) as [|t ts] eqn:Hthemes.
  - unfold exec. by rewrite run_no_themes_eq.
  - unfold exec at 1. rewrite run_completed_eq by (done || by rewrite Hthemes).
    cbv zeta. cbn [snd files]. by rewrite process_all_below_output.
Qed.

Lemma run_writes_only_below_output_witness :
  let E := env_with (HelpExit 0) stub_converter [mixed_theme] in
  let w := mkWorld [] {[ input_dir ]} {[ ["input"; "Aero"; "normal.cur"] := "ICO" ]} in
  files (exec (run E) w) !! ["input"; "Aero"; "normal.cur"] = Some "ICO".
Proof.
  intros E w.
  rewrite (run_writes_only_below_output E w ["input"; "Aero"; "normal.cur"]).
  - reflexivity.
  - intros rest. discriminate.
Defined.
